(** * Employee monitoring backend: stabilizer, sampler and analytics

    A shallow embedding of the emotion-stabilization and presence-aggregation
    core of the backend:

    - [Stabilizer]: class [FEREmotionDetector] of [backend/face_analyzer.py];
    - [Sampler]:    class [EnhancedEmotionDetector] of [backend/main.py];
    - [Api]:        the endpoints [create_detection] and [get_analytics] of
                    [backend/main.py].

    Python [float] is IEEE binary64 and is embedded as Rocq's primitive
    [float]; Python [int] is [Z]; [str] is [string]; [None]-able values are
    [option]; a [dict] is an association list in insertion order (the order
    Python iterates it in); a [datetime] is its number of microseconds since
    the epoch, which is the resolution the type has.

    The modules after [Samples] embed more of the same files and of
    [backend/simple_main.py] and [backend/export_routes.py]: [History],
    [Camera], [Requests], [Reports], [Simple] and [Connections]. *)

From Stdlib Require Import ZArith List String Bool Lia Floats Permutation.

#[global] Set Warnings "-inexact-float".

Import ListNotations.

Local Open Scope Z_scope.
Local Open Scope list_scope.

(* ================================================================== *)
(** ** Python values used by the code *)

Module Py.

(** [dict] with [str] keys: insertion-ordered, one entry per key. *)
Section Dict.
Context {V : Type}.

Definition dict := list (string * V).

(** [d.get(k, default)] *)
Fixpoint get (d : dict) (k : string) (default : V) : V :=
  match d with
  | [] => default
  | (k', v) :: rest => if String.eqb k' k then v else get rest k default
  end.

(** [d[k] = v]: an existing key keeps its place, a new key goes last. *)
Fixpoint set (d : dict) (k : string) (v : V) : dict :=
  match d with
  | [] => [(k, v)]
  | (k', v') :: rest =>
      if String.eqb k' k then (k', v) :: rest else (k', v') :: set rest k v
  end.

(** iteration over a dict yields its keys *)
Definition keys (d : dict) : list string := map fst d.
End Dict.
Arguments dict : clear implicits.

(** [max(iterable, key=f)]: the first element whose key no later element
    exceeds ([max] replaces its candidate only on a strict [>]); [None]
    stands for the [ValueError] raised on an empty iterable. *)
Section Max.
Context {A K : Type} (lt : K -> K -> bool) (key : A -> K).

Fixpoint max_from (best : A) (rest : list A) : A :=
  match rest with
  | [] => best
  | x :: rest' => max_from (if lt (key best) (key x) then x else best) rest'
  end.

Definition max (l : list A) : option A :=
  match l with
  | [] => None
  | x :: rest => Some (max_from x rest)
  end.
End Max.

(** [float(n)] for an [int]: the nearest binary64 value. *)
Definition float_of_int (n : Z) : float :=
  SF2Prim (binary_normalize prec emax n 0 false).

(** [timedelta.total_seconds() > secs] for a whole number of seconds.
    [total_seconds] is the correctly rounded quotient of the microsecond
    count by 10**6; rounding is monotone and a whole number of seconds is
    itself a float, so the comparison of the floats is the comparison of
    the microsecond counts. *)
Definition total_seconds_gt (microseconds secs : Z) : bool :=
  secs * 1000000 <? microseconds.

(** [timedelta.total_seconds() < secs], likewise. *)
Definition total_seconds_lt (microseconds secs : Z) : bool :=
  microseconds <? secs * 1000000.

(** [bisect.bisect_right(a, x, 0, hi)] on an ascending list of floats: the
    number of entries among the first [hi] that are [<= x]
    (the scan stops at the first entry with [x < a[i]]). *)
Fixpoint bisect (a : list float) (x : float) (hi : nat) : nat :=
  match hi, a with
  | S hi', y :: a' => if PrimFloat.ltb x y then O else S (bisect a' x hi')
  | _, _ => O
  end.

(** [itertools.accumulate(weights)] *)
Fixpoint accumulate_from (acc : float) (ws : list float) : list float :=
  match ws with
  | [] => []
  | w :: ws' => let acc' := PrimFloat.add acc w in acc' :: accumulate_from acc' ws'
  end.

Definition accumulate (ws : list float) : list float :=
  match ws with
  | [] => []
  | w :: ws' => w :: accumulate_from w ws'
  end.

(** [random.choices(population, weights=weights)[0]], given the value [u]
    that the generator's [random()] returns for this draw. *)
Definition choices (population : list string) (weights : list float)
           (u : float) : string :=
  let cum_weights := accumulate weights in
  let total := PrimFloat.add (last cum_weights 0%float) 0%float in
  let hi := (List.length population - 1)%nat in
  nth (bisect cum_weights (PrimFloat.mul u total) hi) population EmptyString.

(** [round(x, ndigits)] on a float, for [ndigits >= 0]: the decimal with
    [ndigits] places nearest to the exact value of [x], ties to the even
    digit, converted back to the nearest float (CPython's correctly
    rounded [float.__round__]); infinities, NaN, zeros and whole numbers
    round to themselves. *)
Definition round_half_even (num den : Z) : Z :=
  let q := num / den in
  match (2 * (num mod den)) ?= den with
  | Lt => q
  | Gt => q + 1
  | Eq => if Z.even q then q else q + 1
  end.

Definition round (x : float) (ndigits : Z) : float :=
  match Prim2SF x with
  | S754_finite s m e =>
      if 0 <=? e then x else
      let scale := 10 ^ ndigits in
      let n := round_half_even (Zpos m * scale) (2 ^ (- e)) in
      match n with
      | Zpos p =>
          SF2Prim (SFdiv prec emax (S754_finite s p 0)
                         (S754_finite false (Z.to_pos scale) 0))
      | _ => if s then neg_zero else zero
      end
  | _ => x
  end.

(** Exceptions, as far as the code tells them apart. Both are caught by
    [except Exception]. *)
Inductive exn :=
| Exception (message : string)
| HTTPException (status_code : Z) (detail : string).

(** [str(e)] *)
Definition str (e : exn) : string :=
  match e with
  | Exception message => message
  | HTTPException _ detail => detail
  end.

(** What evaluating an expression or calling a function does. *)
Inductive outcome (A : Type) :=
| Returns (a : A)
| Raises (e : exn).
Arguments Returns {A} a.
Arguments Raises {A} e.

(** [a / b] on two [int]s: [ZeroDivisionError] for [b = 0], otherwise the
    float nearest to the quotient. *)
Definition int_truediv (a b : Z) : outcome float :=
  if b =? 0 then Raises (Exception "division by zero")
  else
    match a with
    | Z0 => Returns (if b <? 0 then neg_zero else zero)
    | _ =>
        Returns (SF2Prim (SFdiv prec emax
                            (S754_finite (a <? 0) (Z.to_pos (Z.abs a)) 0)
                            (S754_finite (b <? 0) (Z.to_pos (Z.abs b)) 0)))
    end.

(** Code that reads and writes a state [S] and may raise: the state
    reached is kept when an exception leaves the code. *)
Section Effects.
Context {S : Type}.

Definition M (A : Type) : Type := S -> outcome A * S.

Definition ret {A} (a : A) : M A := fun s => (Returns a, s).

Definition raise {A} (e : exn) : M A := fun s => (Raises e, s).

Definition bind {A B} (c : M A) (k : A -> M B) : M B :=
  fun s =>
    match c s with
    | (Returns a, s') => k a s'
    | (Raises e, s') => (Raises e, s')
    end.

(** the result of an external call *)
Definition call {A} (o : outcome A) : M A := fun s => (o, s).

Definition get_state : M S := fun s => (Returns s, s).

Definition put_state (s : S) : M unit := fun _ => (Returns tt, s).

(** [try: body  except Exception as e: handler e] *)
Definition try_except {A} (body : M A) (handler : exn -> M A) : M A :=
  fun s =>
    match body s with
    | (Returns a, s') => (Returns a, s')
    | (Raises e, s') => handler e s'
    end.

(** [try: body  finally: cleanup] *)
Definition try_finally {A} (body : M A) (cleanup : M unit) : M A :=
  fun s =>
    match body s with
    | (o, s') =>
        match cleanup s' with
        | (Returns _, s'') => (o, s'')
        | (Raises e, s'') => (Raises e, s'')
        end
    end.

(** [c] returns, from every state, a value that satisfies [P]. *)
Definition always {A} (P : A -> Prop) (c : M A) : Prop :=
  forall s, exists a s', c s = (Returns a, s') /\ P a.

(** Whatever [c] returns satisfies [P]; [c] may also raise. *)
Definition returns_only {A} (P : A -> Prop) (c : M A) : Prop :=
  forall s a s', c s = (Returns a, s') -> P a.
End Effects.
Arguments M : clear implicits.

End Py.

Declare Scope py_scope.
Delimit Scope py_scope with py.
Notation "x <- c ;; k" := (Py.bind c (fun x => k))
  (at level 61, c at next level, right associativity) : py_scope.
Notation "c ;; k" := (Py.bind c (fun _ => k))
  (at level 61, right associativity) : py_scope.

(* ================================================================== *)
(** ** The emotion stabilizer: [FEREmotionDetector] (face_analyzer.py) *)

Module Stabilizer.

(** One buffered observation: [(dominant_emotion, confidence)]. *)
Definition observation : Type := string * float.

Record FEREmotionDetector := mkDetector {
  current_emotion : string;
  emotion_confidence : float;
  last_emotion_change : Z;             (* datetime, in microseconds *)
  emotion_buffer : list observation;
  frame_count : Z;
  ml_available : bool
}.

(** [__init__], at clock reading [now]; [ml] tells whether the FER model
    could be loaded. *)
Definition init (now : Z) (ml : bool) : FEREmotionDetector :=
  {| current_emotion := "neutral";
     emotion_confidence := 85%float;
     last_emotion_change := now;
     emotion_buffer := [];
     frame_count := 0;
     ml_available := ml |}.

(** What [self.detector.detect_emotions(rgb_frame)] does on the frame of a
    call: it raises (as [cv2.cvtColor] may before it), or it returns one
    ['emotions'] dict per face found. *)
Inductive fer_result :=
| FerRaises
| FerResults (results : list (Py.dict float)).

(** Everything a call reads from outside the object. *)
Record call_env := mkEnv {
  fer_output : fer_result;
  clock : Z;                (* datetime.now() *)
  rand_choice : float;      (* random() behind random.choices *)
  rand_uniform : float      (* the value of random.uniform(70, 85) *)
}.

Definition fallback_emotions : list string :=
  ["happy"; "neutral"; "sad"; "surprise"]%string.
Definition fallback_weights : list float :=
  [0.3; 0.4; 0.2; 0.1]%float.

(** [_fallback_emotion] *)
Definition _fallback_emotion (self : FEREmotionDetector) (env : call_env)
  : observation * FEREmotionDetector :=
  let current_time := clock env in
  let time_since_change := current_time - last_emotion_change self in
  if Py.total_seconds_gt time_since_change 10 then
    let self' :=
      {| current_emotion :=
           Py.choices fallback_emotions fallback_weights (rand_choice env);
         emotion_confidence := rand_uniform env;
         last_emotion_change := current_time;
         emotion_buffer := emotion_buffer self;
         frame_count := frame_count self;
         ml_available := ml_available self |} in
    ((current_emotion self', emotion_confidence self'), self')
  else
    ((current_emotion self, emotion_confidence self), self).

(** [max(emotions.items(), key=lambda x: x[1])] *)
Definition dominant (emotions : Py.dict float) : option (string * float) :=
  Py.max PrimFloat.ltb snd emotions.

(** Lines 55-57: append, then drop the oldest entry when more than five
    are held. *)
Definition push (buffer : list observation) (o : observation)
  : list observation :=
  let buffer' := buffer ++ [o] in
  if (5 <? Z.of_nat (List.length buffer')) then tl buffer' else buffer'.

(** Lines 61-63: the occurrence count of every label of the buffer. *)
Definition count_emotions (buffer : list observation) : Py.dict Z :=
  fold_left (fun counts (o : observation) =>
               Py.set counts (fst o) (Py.get counts (fst o) 0 + 1))
            buffer [].

(** Line 65: [max(emotion_counts, key=emotion_counts.get)] *)
Definition best_of (emotion_counts : Py.dict Z) : option string :=
  Py.max Z.ltb (fun emo => Py.get emotion_counts emo 0)
         (Py.keys emotion_counts).

(** the confidences averaged on line 66 *)
Definition confidences_of (best : string) (buffer : list observation)
  : list float :=
  map snd (filter (fun o => String.eqb (fst o) best) buffer).

(** Line 30: [self.frame_count += 1] *)
Definition count_frame (self : FEREmotionDetector) : FEREmotionDetector :=
  {| current_emotion := current_emotion self;
     emotion_confidence := emotion_confidence self;
     last_emotion_change := last_emotion_change self;
     emotion_buffer := emotion_buffer self;
     frame_count := frame_count self + 1;
     ml_available := ml_available self |}.

(** Lines 55-57 on the object: [self] with the observation buffered. *)
Definition buffered (self : FEREmotionDetector) (o : observation)
  : FEREmotionDetector :=
  {| current_emotion := current_emotion self;
     emotion_confidence := emotion_confidence self;
     last_emotion_change := last_emotion_change self;
     emotion_buffer := push (emotion_buffer self) o;
     frame_count := frame_count self;
     ml_available := ml_available self |}.

Section WithNumpy.
(** [numpy.mean] on a list of floats: a function of the external library,
    taken as a parameter. *)
Variable np_mean : list float -> float.

(** Lines 60-80: the majority vote over the buffer the object holds. *)
Definition vote (self : FEREmotionDetector) (env : call_env)
  : option FEREmotionDetector :=
  if 3 <=? Z.of_nat (List.length (emotion_buffer self)) then
    let emotion_counts := count_emotions (emotion_buffer self) in
    match best_of emotion_counts with
    | None => None        (* ValueError: handled by the caller's except *)
    | Some best_emotion =>
        let avg_confidence :=
          np_mean (confidences_of best_emotion (emotion_buffer self)) in
        let current_time := clock env in
        let time_since_change := current_time - last_emotion_change self in
        if negb (String.eqb best_emotion (current_emotion self))
           && (3 <=? Py.get emotion_counts best_emotion 0)
           && Py.total_seconds_gt time_since_change 2
           && PrimFloat.ltb 60 avg_confidence
        then
          Some {| current_emotion := best_emotion;
                  emotion_confidence := avg_confidence;
                  last_emotion_change := current_time;
                  emotion_buffer := emotion_buffer self;
                  frame_count := frame_count self;
                  ml_available := ml_available self |}
        else Some self
    end
  else Some self.

(** Lines 36-88 of [detect_emotion]: the work of a call that is not
    skipped. *)
Definition classify (self : FEREmotionDetector) (env : call_env)
  : observation * FEREmotionDetector :=
  if negb (ml_available self) then
    _fallback_emotion self env
  else
    match fer_output env with
    | FerResults (emotions :: _) =>
        match dominant emotions with
        | Some (dominant_emotion, score) =>
            let confidence := PrimFloat.mul score 100 in
            let self := buffered self (dominant_emotion, confidence) in
            match vote self env with
            | Some self =>
                ((current_emotion self, emotion_confidence self), self)
            | None => _fallback_emotion self env
            end
        | None => _fallback_emotion self env     (* except: ValueError *)
        end
    | FerResults [] => _fallback_emotion self env  (* no face *)
    | FerRaises => _fallback_emotion self env      (* except *)
    end.

(** [detect_emotion]: the returned pair and the object after the call. *)
Definition detect_emotion (self : FEREmotionDetector) (env : call_env)
  : observation * FEREmotionDetector :=
  let self := count_frame self in
  if negb (frame_count self mod 3 =? 0) then
    ((current_emotion self, emotion_confidence self), self)
  else
    classify self env.

(** A run of calls, one environment per call, oldest first. *)
Definition run (self : FEREmotionDetector) (envs : list call_env)
  : FEREmotionDetector :=
  fold_left (fun s env => snd (detect_emotion s env)) envs self.

End WithNumpy.

(** A reference [numpy.mean] for evaluating the model: the sum of the
    entries, left to right, divided by their number. *)
Definition mean (l : list float) : float :=
  PrimFloat.div (fold_left PrimFloat.add l 0%float)
                (Py.float_of_int (Z.of_nat (List.length l))).

(** Which branch of [detect_emotion] a call takes. *)
Inductive path := Skipped | Fallback | Voted.

Definition path_of (self : FEREmotionDetector) (env : call_env) : path :=
  if negb ((frame_count self + 1) mod 3 =? 0) then Skipped
  else if negb (ml_available self) then Fallback
  else match fer_output env with
       | FerResults (emotions :: _) =>
           match dominant emotions with
           | Some _ => Voted
           | None => Fallback
           end
       | _ => Fallback
       end.

(** The number of buffered observations that carry label [emo]. *)
Definition occurrences (emo : string) (buffer : list observation) : Z :=
  Z.of_nat (List.length (filter (fun o => String.eqb (fst o) emo) buffer)).

(** The documented range of [random.uniform(70, 85)]. *)
Definition uniform_in_range (env : call_env) : Prop :=
  PrimFloat.leb 70 (rand_uniform env) = true /\
  PrimFloat.leb (rand_uniform env) 85 = true.

End Stabilizer.

(* ================================================================== *)
(** ** The presence sampler: [EnhancedEmotionDetector] (main.py) *)

Module Sampler.
Import Py.
Local Open Scope py_scope.

(** A frame ([numpy] array) and its JPEG encoding; their contents play no
    part in what follows. *)
Definition ndarray : Type := list Z.
Definition bytes : Type := list Z.

(** A face rectangle [(x, y, w, h)]. *)
Definition face : Type := Z * Z * Z * Z.

(** [cv2.VideoCapture]: [isOpened()] queries the handle and is taken not
    to raise. *)
Record VideoCapture := { isOpened : bool }.

Record EnhancedEmotionDetector := mkSampler {
  camera : option VideoCapture;
  face_cascade : option unit;
  emotions : list string;
  (* attributes that [_detect_emotion_basic] creates on first use *)
  persistent_emotion : option string;
  persistent_confidence : option float;
  last_change_time : option Z
}.

(** The sampler and the module-level [face_analyzer] it calls. *)
Record world := mkWorld {
  detector : EnhancedEmotionDetector;
  face_analyzer : Stabilizer.FEREmotionDetector
}.

(** The flags fixed when the module is imported. *)
Record globals := {
  CV_AVAILABLE : bool;
  FACE_ANALYZER_AVAILABLE : bool;
  DEEPFACE_AVAILABLE : bool
}.

(** [__init__]: [cascade] tells whether the face cascade could be loaded. *)
Definition init (g : globals) (cascade : bool) : EnhancedEmotionDetector :=
  {| camera := None;
     face_cascade := if CV_AVAILABLE g && cascade then Some tt else None;
     emotions := ["happy"; "sad"; "neutral"; "angry"; "surprise"; "fear";
                  "disgust"]%string;
     persistent_emotion := None;
     persistent_confidence := None;
     last_change_time := None |}.

(** What [_detect_emotion_basic] reads from outside. *)
Record basic_env := {
  gray_stats : outcome (float * float);  (* cvtColor, np.mean, np.std *)
  basic_clock : Z;                       (* datetime.now() *)
  uniform_target : float;                (* random.uniform of lines 191-200 *)
  change_draw : float;                   (* random.random() of line 207 *)
  uniform_adjust : float                 (* random.uniform(-1, 1) *)
}.

(** What [_get_demo_frame] reads from outside. *)
Record demo_env := {
  presence_draw : float;                 (* random.random() *)
  choice : string;                       (* random.choice(self.emotions) *)
  uniform_confidence : float;            (* random.uniform(70, 95) *)
  demo_render : outcome bytes            (* np.ones ... cv2.imencode *)
}.

(** Everything one [get_frame] reads from outside; any call into [cv2] may
    raise. *)
Record frame_env := {
  capture : nat -> outcome VideoCapture; (* cv2.VideoCapture(i) *)
  camera_set : outcome unit;             (* self.camera.set(...) *)
  camera_read : outcome (bool * option ndarray);
  find_faces : outcome (list face);      (* cvtColor, detectMultiScale *)
  draw : outcome unit;                   (* cv2.rectangle, cv2.putText *)
  imencode : outcome bytes;
  analyzer_env : Stabilizer.call_env;
  basic : basic_env;
  demo : demo_env
}.

Definition get_detector : M world EnhancedEmotionDetector :=
  fun w => (Returns (detector w), w).

Definition set_detector (d : EnhancedEmotionDetector) : M world unit :=
  fun w => (Returns tt, {| detector := d; face_analyzer := face_analyzer w |}).

Definition set_camera (c : option VideoCapture) : M world unit :=
  d <- get_detector ;;
  set_detector {| camera := c;
                  face_cascade := face_cascade d;
                  emotions := emotions d;
                  persistent_emotion := persistent_emotion d;
                  persistent_confidence := persistent_confidence d;
                  last_change_time := last_change_time d |}.

Definition set_persistent (e : option string) (c : option float)
           (t : option Z) : M world unit :=
  d <- get_detector ;;
  set_detector {| camera := camera d;
                  face_cascade := face_cascade d;
                  emotions := emotions d;
                  persistent_emotion := e;
                  persistent_confidence := c;
                  last_change_time := t |}.

(** Reading an attribute that may not exist: [AttributeError]. *)
Definition attribute {A} (name : string) (a : option A) : M world A :=
  match a with
  | Some v => ret v
  | None => raise (Exception name)
  end.

(** [max(a, b)] and [min(a, b)] on two numbers. *)
Definition max2 (a b : float) : float := if PrimFloat.ltb a b then b else a.
Definition min2 (a b : float) : float := if PrimFloat.ltb b a then b else a.

Section WithGlobals.
Variable np_mean : list float -> float.
Variable g : globals.

(** Lines 139-142: [for i in range(1, 4)] *)
Fixpoint try_indices (env : frame_env) (indices : list nat) : M world unit :=
  match indices with
  | [] => ret tt
  | i :: rest =>
      c <- call (capture env i) ;;
      set_camera (Some c) ;;
      if isOpened c then ret tt else try_indices env rest
  end.

(** [initialize_camera] *)
Definition initialize_camera (env : frame_env) : M world bool :=
  if negb (CV_AVAILABLE g) then ret false
  else
    d <- get_detector ;;
    match camera d with
    | None =>
        try_except
          (c <- call (capture env 0) ;;
           set_camera (Some c) ;;
           (if negb (isOpened c) then try_indices env [1; 2; 3]%nat
            else ret tt) ;;
           d <- get_detector ;;
           c <- attribute "camera" (camera d) ;;
           if isOpened c then
             call (camera_set env) ;;
             call (camera_set env) ;;
             ret true
           else ret false)
          (fun _ => ret false)
    | Some c => ret (isOpened c)
    end.

(** [_detect_emotion_basic] *)
Definition _detect_emotion_basic (env : basic_env)
  : M world (string * float) :=
  try_except
    (stats <- call (gray_stats env) ;;
     let brightness := fst stats in
     let contrast := snd stats in
     d <- get_detector ;;
     (match persistent_emotion d with
      | None => set_persistent (Some "neutral"%string) (Some 85%float)
                               (Some (basic_clock env))
      | Some _ => ret tt
      end) ;;
     let current_time := basic_clock env in
     d <- get_detector ;;
     last <- attribute "last_change_time" (last_change_time d) ;;
     let time_since_change := current_time - last in
     emotion <- attribute "persistent_emotion" (persistent_emotion d) ;;
     conf <- attribute "persistent_confidence" (persistent_confidence d) ;;
     if total_seconds_lt time_since_change 2 then ret (emotion, conf)
     else
       let target :=
         if PrimFloat.ltb 160 brightness && PrimFloat.ltb 55 contrast then
           ("happy"%string, uniform_target env)
         else if PrimFloat.ltb brightness 80 && PrimFloat.ltb contrast 45 then
           ("sad"%string, uniform_target env)
         else if PrimFloat.ltb 60 contrast then
           ("surprise"%string, uniform_target env)
         else if PrimFloat.ltb 140 brightness then
           ("neutral"%string, uniform_target env)
         else
           (emotion, max2 75 (PrimFloat.sub conf 2)) in
       let target_emotion := fst target in
       let confidence := snd target in
       if negb (String.eqb target_emotion emotion)
          && PrimFloat.ltb 80 confidence
          && PrimFloat.ltb 0.3 (change_draw env)
       then
         set_persistent (Some target_emotion) (Some confidence)
                        (Some current_time) ;;
         ret (target_emotion, confidence)
       else
         let confidence_change := uniform_adjust env in
         let conf' := max2 75 (min2 95 (PrimFloat.add conf confidence_change)) in
         set_persistent (Some emotion) (Some conf') (Some last) ;;
         ret (emotion, conf'))
    (fun _ =>
       d <- get_detector ;;
       (match persistent_emotion d with
        | None => set_persistent (Some "neutral"%string) (Some 85%float)
                                 (last_change_time d)
        | Some _ => ret tt
        end) ;;
       d <- get_detector ;;
       emotion <- attribute "persistent_emotion" (persistent_emotion d) ;;
       conf <- attribute "persistent_confidence" (persistent_confidence d) ;;
       ret (emotion, conf)).

(** [face_analyzer.detect_emotion(face_roi)] on the shared object *)
Definition analyzer_detect (env : Stabilizer.call_env)
  : M world (string * float) :=
  fun w =>
    let (result, analyzer) :=
      Stabilizer.detect_emotion np_mean (face_analyzer w) env in
    (Returns result, {| detector := detector w; face_analyzer := analyzer |}).

(** [detect_emotion_enhanced] *)
Definition detect_emotion_enhanced (env : frame_env)
  : M world (string * float) :=
  if FACE_ANALYZER_AVAILABLE g then
    try_except (analyzer_detect (analyzer_env env))
               (fun _ => _detect_emotion_basic (basic env))
  else _detect_emotion_basic (basic env).

(** The tuple [(is_present, emotion, confidence, frame)]. *)
Definition detection : Type :=
  bool * option string * option float * option ndarray.

(** [detect_face_and_emotion] *)
Definition detect_face_and_emotion (env : frame_env) (frame : option ndarray)
  : M world detection :=
  if negb (CV_AVAILABLE g) then ret (false, None, None, frame)
  else
    try_except
      (_ <- attribute "frame" frame ;;           (* cvtColor(None) raises *)
       d <- get_detector ;;
       _ <- attribute "face_cascade" (face_cascade d) ;;
       faces <- call (find_faces env) ;;
       if (List.length faces =? 0)%nat then ret (false, None, None, frame)
       else
         _ <- attribute "max"
                (Py.max Z.ltb (fun f : face => snd (fst f) * snd f) faces) ;;
         call (draw env) ;;
         result <- detect_emotion_enhanced env ;;
         let emotion := fst result in
         let confidence := snd result in
         call (draw env) ;;
         call (draw env) ;;
         ret (true, Some emotion, Some confidence, frame))
      (fun _ => ret (false, None, None, frame)).

(** The tuple [(frame_bytes, is_present, emotion, confidence)]. *)
Definition sample : Type :=
  option bytes * bool * option string * option float.

Definition not_present : sample := (None, false, None, None).

(** [_get_demo_frame] *)
Definition _get_demo_frame (env : demo_env) : M world sample :=
  let is_present := PrimFloat.ltb 0.3 (presence_draw env) in
  let emotion :=
    if is_present then Some (choice env) else None in
  let confidence :=
    if is_present then Some (round (uniform_confidence env) 1) else None in
  try_except
    (frame_bytes <- call (demo_render env) ;;
     ret (Some frame_bytes, is_present, emotion, confidence))
    (fun _ => ret not_present).

(** [get_frame] *)
Definition get_frame (env : frame_env) : M world sample :=
  if negb (CV_AVAILABLE g) then _get_demo_frame (demo env)
  else
    ok <- initialize_camera env ;;
    if negb ok then ret not_present
    else
      try_except
        (r <- call (camera_read env) ;;
         let ret_ := fst r in
         let frame := snd r in
         if negb ret_ then ret not_present
         else
           found <- detect_face_and_emotion env frame ;;
           match found with
           | (is_present, emotion, confidence, Some processed_frame) =>
               frame_bytes <- call (imencode env) ;;
               ret (Some frame_bytes, is_present, emotion, confidence)
           | (_, _, _, None) => ret not_present
           end)
        (fun _ => ret not_present).

End WithGlobals.

(** What [detect_face_and_emotion] can return for the frame it is given. *)
Definition face_result (frame : option ndarray)
           (r : bool * option string * option float * option ndarray) : Prop :=
  r = (false, None, None, frame) \/
  exists emotion confidence, r = (true, Some emotion, Some confidence, frame).

(** A sample is well formed when emotion and confidence are both absent
    if nobody is present and both given if somebody is. *)
Definition well_formed (s : sample) : Prop :=
  match s with
  | (_, is_present, emotion, confidence) =>
      (emotion = None <-> is_present = false) /\
      (confidence = None <-> is_present = false)
  end.

End Sampler.

(* ================================================================== *)
(** ** The endpoints [create_detection] and [get_analytics] (main.py) *)

Module Api.
Import Py.
Local Open Scope py_scope.

(** A row of [detection_logs]; [id] and [timestamp] are filled in when the
    row is inserted. *)
Record DetectionLog := mkLog {
  id : option Z;
  employee_id : string;
  timestamp : option Z;           (* datetime, in microseconds *)
  is_present : Z;                 (* 1 for present, 0 for not present *)
  emotion : option string;
  confidence : option float
}.

Record DetectionResponse := {
  r_id : option Z;
  r_employee_id : string;
  r_timestamp : option Z;
  r_is_present : bool;
  r_emotion : option string;
  r_confidence : option float
}.

Record AnalyticsResponse := mkAnalytics {
  total_detections : Z;
  presence_percentage : float;
  emotion_distribution : dict Z;
  working_hours : float
}.

(** The calls a request makes on its session. *)
Inductive session_call :=
| SessionLocal | Add | Commit | Refresh | Rollback | Close.

(** The database as a session sees it: the committed rows of the table,
    the rows added in the session's open transaction, and the calls made
    on sessions so far, oldest first. *)
Record database := mkDb {
  rows : list DetectionLog;
  uncommitted : list DetectionLog;
  history : list session_call
}.

(** The process: the sampler with its analyzer, and the database. *)
Record server := mkServer {
  sampling : Sampler.world;
  db : database
}.

(** What the persistence layer does in one request. *)
Record db_env := {
  add_result : outcome unit;       (* db.add *)
  commit_result : outcome unit;    (* db.commit *)
  refresh_result : outcome unit;   (* db.refresh *)
  utcnow : Z                       (* datetime.utcnow() *)
}.

Definition get_db : M server database := fun s => (Returns (db s), s).

Definition set_db (d : database) : M server unit :=
  fun s => (Returns tt, {| sampling := sampling s; db := d |}).

(** note a call on the session, then change rows and transaction *)
Definition session (c : session_call)
           (change : database -> list DetectionLog * list DetectionLog)
  : M server unit :=
  d <- get_db ;;
  set_db {| rows := fst (change d);
            uncommitted := snd (change d);
            history := history d ++ [c] |}.

Definition unchanged (d : database) : list DetectionLog * list DetectionLog :=
  (rows d, uncommitted d).

(** the primary key given to the next inserted row *)
Definition next_id (table : list DetectionLog) : Z :=
  1 + fold_left (fun m r => match id r with
                            | Some i => Z.max m i
                            | None => m
                            end) table 0.

(** the row as inserted: defaults filled in *)
Definition inserted (table : list DetectionLog) (now : Z) (r : DetectionLog)
  : DetectionLog :=
  {| id := Some (next_id table);
     employee_id := employee_id r;
     timestamp := Some now;
     is_present := is_present r;
     emotion := emotion r;
     confidence := confidence r |}.

(** [SessionLocal()]: a new session, with nothing added yet. *)
Definition db_open : M server unit :=
  session SessionLocal (fun d => (rows d, [])).

(** [db.add(detection)] *)
Definition db_add (env : db_env) (r : DetectionLog) : M server unit :=
  session Add unchanged ;;
  call (add_result env) ;;
  d <- get_db ;;
  set_db {| rows := rows d;
            uncommitted := uncommitted d ++ [r];
            history := history d |}.

(** [db.commit()]: all rows of the transaction reach the table, or, when
    the write fails, none does and the transaction stays open. *)
Definition db_commit (env : db_env) : M server unit :=
  session Commit unchanged ;;
  call (commit_result env) ;;
  d <- get_db ;;
  set_db {| rows := fold_left
                      (fun table r => table ++ [inserted table (utcnow env) r])
                      (uncommitted d) (rows d);
            uncommitted := [];
            history := history d |}.

(** [db.refresh(detection)]: the row as stored. *)
Definition db_refresh (env : db_env) : M server DetectionLog :=
  session Refresh unchanged ;;
  call (refresh_result env) ;;
  d <- get_db ;;
  match List.last (map Some (rows d)) None with
  | Some r => ret r
  | None => raise (Exception "refresh")
  end.

(** [db.rollback()] *)
Definition db_rollback : M server unit :=
  session Rollback (fun d => (rows d, [])).

(** [db.close()]: releases the session and what its transaction holds. *)
Definition db_close : M server unit :=
  session Close (fun d => (rows d, [])).

(** [detector.get_frame()] on the sampler part of the process. *)
Definition sampler_call {A} (c : M Sampler.world A) : M server A :=
  fun s =>
    match c (sampling s) with
    | (o, w) => (o, {| sampling := w; db := db s |})
    end.

Section WithGlobals.
Variable np_mean : list float -> float.
Variable g : Sampler.globals.

(** [create_detection] *)
Definition create_detection (employee_id : string)
           (frame : Sampler.frame_env) (env : db_env)
  : M server DetectionResponse :=
  sampled <- sampler_call (Sampler.get_frame np_mean g frame) ;;
  let '(frame_bytes, is_present, emotion, confidence) := sampled in
  db_open ;;
  try_finally
    (try_except
       (let detection :=
          {| id := None;
             employee_id := employee_id;
             timestamp := None;
             is_present := if is_present : bool then 1 else 0;
             emotion := emotion;
             confidence := confidence |} in
        db_add env detection ;;
        db_commit env ;;
        detection <- db_refresh env ;;
        ret {| r_id := id detection;
               r_employee_id := Api.employee_id detection;
               r_timestamp := timestamp detection;
               r_is_present := negb (Api.is_present detection =? 0);
               r_emotion := Api.emotion detection;
               r_confidence := Api.confidence detection |})
       (fun e =>
          db_rollback ;;
          raise (HTTPException 500 ("Database error: " ++ str e))))
    db_close.
End WithGlobals.

(** Truth of [d.emotion] in a condition: set and not empty. *)
Definition truthy_str (s : option string) : bool :=
  match s with
  | Some EmptyString => false
  | Some _ => true
  | None => false
  end.

(** Truth of [d.is_present] in a condition. *)
Definition truthy_int (n : Z) : bool := negb (n =? 0).

(** Lines 550-553: the emotion distribution. *)
Definition count_emotions (detections : list DetectionLog) : dict Z :=
  fold_left (fun emotion_counts d =>
               match emotion d with
               | Some e =>
                   if truthy_str (emotion d) && truthy_int (is_present d)
                   then set emotion_counts e (get emotion_counts e 0 + 1)
                   else emotion_counts
               | None => emotion_counts
               end)
            detections [].

Section WithDivision.
(** [/] on two [int]s. The aggregation is written over the division it
    uses so that one can tell where it divides. *)
Variable truediv : Z -> Z -> outcome float.

(** Lines 536-563 of [get_analytics]: the summary of the rows found. *)
Definition summarize (detections : list DetectionLog)
  : outcome AnalyticsResponse :=
  match detections with
  | [] =>
      Returns {| total_detections := 0;
                 presence_percentage := 0%float;
                 emotion_distribution := [];
                 working_hours := 0%float |}
  | _ =>
      let total := Z.of_nat (List.length detections) in
      let present_count :=
        Z.of_nat (List.length
                    (filter (fun d => truthy_int (is_present d)) detections)) in
      let presence :=
        if 0 <? total then
          match truediv present_count total with
          | Returns q => Returns (PrimFloat.mul q 100)
          | Raises e => Raises e
          end
        else Returns 0%float in
      match presence with
      | Raises e => Raises e
      | Returns presence_percentage =>
          let emotion_counts := count_emotions detections in
          let working_hours :=
            PrimFloat.div
              (PrimFloat.mul (float_of_int present_count) 0.5) 60 in
          Returns {| total_detections := total;
                     presence_percentage := round presence_percentage 2;
                     emotion_distribution := emotion_counts;
                     working_hours := round working_hours 2 |}
      end
  end.
End WithDivision.

Definition empty_summary : AnalyticsResponse :=
  {| total_detections := 0;
     presence_percentage := 0%float;
     emotion_distribution := [];
     working_hours := 0%float |}.

(** A row of a present subject with emotion [emo]; a row of an absent
    subject. *)
Definition present_with (emo : string) (d : DetectionLog) : Prop :=
  is_present d <> 0 /\ emotion d = Some emo.
Definition absent_row (d : DetectionLog) : Prop := is_present d = 0.

(** The summary [export_csv] computes for the same rows (export_routes.py,
    lines 224-239): the figures are kept as computed and formatted when the
    report is written. *)
Definition export_analytics (detections : list DetectionLog)
  : outcome AnalyticsResponse :=
  let total_detections := Z.of_nat (List.length detections) in
  let present_count :=
    Z.of_nat (List.length
                (filter (fun d => truthy_int (is_present d)) detections)) in
  let presence :=
    if 0 <? total_detections then
      match int_truediv present_count total_detections with
      | Returns q => Returns (PrimFloat.mul q 100)
      | Raises e => Raises e
      end
    else Returns 0%float in
  match presence with
  | Raises e => Raises e
  | Returns presence_percentage =>
      Returns {| total_detections := total_detections;
                 presence_percentage := presence_percentage;
                 emotion_distribution := count_emotions detections;
                 working_hours :=
                   PrimFloat.div
                     (PrimFloat.mul (float_of_int present_count) 0.5) 60 |}
  end.

(** Lines 529-534: the rows of one employee since [start_date]. *)
Definition query_since (table : list DetectionLog) (employee : string)
           (start_date : Z) : list DetectionLog :=
  filter (fun d => String.eqb (employee_id d) employee
                   && match timestamp d with
                      | Some t => start_date <=? t
                      | None => false
                      end)
         table.

(** [timedelta(days=days)], in microseconds: the constructor takes at most
    999999999 days of either sign and raises OverflowError beyond; the
    text of that error depends on the size of the number and is not
    modelled. *)
Definition timedelta (days : Z) : outcome Z :=
  if Z.abs days <=? 999999999 then Returns (days * 86400000000)
  else Raises (Exception "OverflowError").

(** [datetime.min], 0001-01-01 00:00:00, and [datetime.max],
    9999-12-31 23:59:59.999999. *)
Definition datetime_min : Z := -62135596800000000.
Definition datetime_max : Z := 253402300799999999.

(** [t - delta] on a [datetime]: OverflowError when the result is not a
    date of the years 1 to 9999. *)
Definition datetime_sub (t delta : Z) : outcome Z :=
  let r := t - delta in
  if (datetime_min <=? r) && (r <=? datetime_max) then Returns r
  else Raises (Exception "date value out of range").

(** Line 529: [datetime.utcnow() - timedelta(days=days)] *)
Definition since (now days : Z) : outcome Z :=
  match timedelta days with
  | Returns delta => datetime_sub now delta
  | Raises e => Raises e
  end.

(** [get_analytics] *)
Definition get_analytics (employee : string) (days : Z) (now : Z)
  : M server AnalyticsResponse :=
  db_open ;;
  try_finally
    (start_date <- call (since now days) ;;
     d <- get_db ;;
     let detections := query_since (rows d) employee start_date in
     call (summarize int_truediv detections))
    db_close.

(** The aggregation on its own, with Python's division. *)
Definition aggregate (detections : list DetectionLog)
  : outcome AnalyticsResponse :=
  summarize int_truediv detections.

End Api.


(* ================================================================== *)
(** ** Concrete inputs *)

Module Samples.
Import Stabilizer.

(** The seven labels the FER model scores. *)
Definition fer_labels : list string :=
  ["angry"; "disgust"; "fear"; "happy"; "sad"; "surprise"; "neutral"]%string.

(** A classifier result for one face: [score] for [label], 0.01 for every
    other label. *)
Definition fer_scores (label : string) (score : float) : Py.dict float :=
  map (fun l => (l, if String.eqb l label then score else 0.01%float))
      fer_labels.

(** A call at clock reading [t] on a frame in which the classifier sees
    [label] with [score]. *)
Definition seen (label : string) (score : float) (t : Z) : call_env :=
  {| fer_output := FerResults [fer_scores label score];
     clock := t;
     rand_choice := 0%float;
     rand_uniform := 75%float |}.

(** A call at clock reading [t] on a frame without a face. *)
Definition no_face (t : Z) : call_env :=
  {| fer_output := FerResults [];
     clock := t;
     rand_choice := 0%float;
     rand_uniform := 75%float |}.

(** Three calls on the same input: the third one is worked on. *)
Definition thrice (env : call_env) : list call_env := [env; env; env].

(** Eight calls after construction at time 0: "happy" has been buffered
    twice and the next call is worked on. *)
Definition two_happy : FEREmotionDetector :=
  run mean (init 0 true)
      (thrice (seen "happy" 0.9 1000000) ++ thrice (seen "happy" 0.8 1200000)
       ++ [no_face 1300000; no_face 1400000]).

(** Fourteen calls within 2 s of construction at time 0: "happy" has been
    buffered at 90 and at 80, "sad" twice at 20, and the next call is
    worked on. *)
Definition two_happy_two_sad : FEREmotionDetector :=
  run mean (init 0 true)
      (thrice (seen "happy" 0.9 1000000) ++ thrice (seen "happy" 0.8 1200000)
       ++ thrice (seen "sad" 0.2 1300000) ++ thrice (seen "sad" 0.2 1400000)
       ++ [no_face 1500000; no_face 1600000]).

(** Seventeen calls: five observations fill the buffer and the next call
    is worked on. *)
Definition filling_calls : list call_env :=
  thrice (seen "happy" 0.9 100000) ++ thrice (seen "sad" 0.8 200000)
  ++ thrice (seen "happy" 0.7 300000) ++ thrice (seen "sad" 0.6 400000)
  ++ thrice (seen "fear" 0.5 500000)
  ++ [no_face 600000; no_face 700000].

(** Two calls after construction: nothing buffered, the next call is
    worked on. *)
Definition fresh : FEREmotionDetector :=
  run mean (init 0 true) [no_face 1; no_face 2].

(** Nine calls without a face, 11 s apart from one worked-on call to the
    next. *)
Definition faceless_calls : list call_env :=
  thrice (no_face 11000000) ++ thrice (no_face 22000000)
  ++ thrice (no_face 33000000).

(** A process without OpenCV: the sampler runs in demo mode. *)
Definition demo_globals : Sampler.globals :=
  {| Sampler.CV_AVAILABLE := false;
     Sampler.FACE_ANALYZER_AVAILABLE := false;
     Sampler.DEEPFACE_AVAILABLE := false |}.

(** A process with OpenCV and the face analyzer. *)
Definition cv_globals : Sampler.globals :=
  {| Sampler.CV_AVAILABLE := true;
     Sampler.FACE_ANALYZER_AVAILABLE := true;
     Sampler.DEEPFACE_AVAILABLE := false |}.

Definition quiet_basic : Sampler.basic_env :=
  {| Sampler.gray_stats := Py.Returns (120%float, 50%float);
     Sampler.basic_clock := 0;
     Sampler.uniform_target := 85%float;
     Sampler.change_draw := 0.5%float;
     Sampler.uniform_adjust := 0%float |}.

Definition demo_draws : Sampler.demo_env :=
  {| Sampler.presence_draw := 0.8%float;
     Sampler.choice := "happy";
     Sampler.uniform_confidence := 82.449999%float;
     Sampler.demo_render := Py.Returns [255; 216; 255] |}.

(** A frame with one face, on a camera that opens at index 0; [read] is
    what [self.camera.read()] does. *)
Definition one_face (read : Py.outcome (bool * option Sampler.ndarray))
  : Sampler.frame_env :=
  {| Sampler.capture := fun _ => Py.Returns {| Sampler.isOpened := true |};
     Sampler.camera_set := Py.Returns tt;
     Sampler.camera_read := read;
     Sampler.find_faces := Py.Returns [(10, 20, 64, 64)];
     Sampler.draw := Py.Returns tt;
     Sampler.imencode := Py.Returns [255; 216; 255];
     Sampler.analyzer_env := seen "happy" 0.9 3000000;
     Sampler.basic := quiet_basic;
     Sampler.demo := demo_draws |}.

(** The process right after start, with an empty table. *)
Definition started (g : Sampler.globals) : Api.server :=
  {| Api.sampling :=
       {| Sampler.detector := Sampler.init g true;
          Sampler.face_analyzer := init 0 true |};
     Api.db := {| Api.rows := []; Api.uncommitted := []; Api.history := [] |} |}.

(** A request during which [db.commit()] fails. *)
Definition locked : Api.db_env :=
  {| Api.add_result := Py.Returns tt;
     Api.commit_result := Py.Raises (Py.Exception "database is locked");
     Api.refresh_result := Py.Returns tt;
     Api.utcnow := 1000000 |}.

(** A request that the database serves. *)
Definition healthy : Api.db_env :=
  {| Api.add_result := Py.Returns tt;
     Api.commit_result := Py.Returns tt;
     Api.refresh_result := Py.Returns tt;
     Api.utcnow := 1000000 |}.

Definition present (emo : string) (conf : float) : Api.DetectionLog :=
  {| Api.id := None; Api.employee_id := "EMP001"; Api.timestamp := None;
     Api.is_present := 1; Api.emotion := Some emo;
     Api.confidence := Some conf |}.

Definition absent : Api.DetectionLog :=
  {| Api.id := None; Api.employee_id := "EMP001"; Api.timestamp := None;
     Api.is_present := 0; Api.emotion := None; Api.confidence := None |}.

(** [present/happy, present/happy, present/sad, absent] *)
Definition four_events : list Api.DetectionLog :=
  [present "happy" 91.5; present "happy" 88; present "sad" 72.25; absent].

End Samples.

(* ================================================================== *)
(** ** The stabilizer over a whole run *)

Module History.
Import Stabilizer.

(** The last [k] entries of a list. *)
Definition lastn {A} (k : nat) (l : list A) : list A :=
  skipn (List.length l - k) l.

(** What call number [n] buffers (lines 33-57): nothing unless [n] is a
    multiple of 3, the model is loaded and the classifier returns a face
    with scores. *)
Definition observed (ml : bool) (n : Z) (env : call_env) : list observation :=
  if (n mod 3 =? 0) && ml then
    match fer_output env with
    | FerResults (emotions :: _) =>
        match dominant emotions with
        | Some (label, score) => [(label, PrimFloat.mul score 100)]
        | None => []
        end
    | _ => []
    end
  else [].

(** What the calls numbered [n + 1], [n + 2], ... buffer, oldest first. *)
Fixpoint observations (ml : bool) (n : Z) (envs : list call_env)
  : list observation :=
  match envs with
  | [] => []
  | env :: rest => observed ml (n + 1) env ++ observations ml (n + 1) rest
  end.

(** The labels the classifier scores for the first face of a call. *)
Definition reported (env : call_env) : list string :=
  match fer_output env with
  | FerResults (emotions :: _) => Py.keys emotions
  | _ => []
  end.

(** The labels in use of an object: those of the fallback policy and those
    the classifier has reported. *)
Definition labelled (labels : list string) (self : FEREmotionDetector) : Prop :=
  In (current_emotion self) (fallback_emotions ++ labels) /\
  Forall (fun o : observation => In (fst o) labels) (emotion_buffer self).

End History.

(* ================================================================== *)
(** ** More of the sampler (main.py) *)

Module Camera.
Import Py Sampler.
Local Open Scope py_scope.

(** The attributes [_detect_emotion_basic] keeps on the sampler. *)
Definition persistent (d : EnhancedEmotionDetector)
  : option string * option float * option Z :=
  (persistent_emotion d, persistent_confidence d, last_change_time d).

(** The labels [_detect_emotion_basic] can assign. *)
Definition basic_emotions : list string :=
  ["neutral"; "happy"; "sad"; "surprise"]%string.

(** The attributes are absent together, or hold one of the four labels
    with a confidence of at least 75. *)
Definition basic_ok (d : EnhancedEmotionDetector) : Prop :=
  match persistent_emotion d, persistent_confidence d with
  | None, None => True
  | Some e, Some c => In e basic_emotions /\ PrimFloat.leb 75 c = true
  | _, _ => False
  end.

(** No handle that [cv2.VideoCapture] returns for the indices 0 to 3 is
    opened. *)
Definition no_camera_opens (env : frame_env) : Prop :=
  forall i, (i <= 3)%nat ->
            exists c, capture env i = Returns c /\ isOpened c = false.

(** A machine on which no camera opens. *)
Definition unplugged : frame_env :=
  {| capture := fun _ => Returns {| isOpened := false |};
     camera_set := Returns tt;
     camera_read := Returns (false, None);
     find_faces := Returns [];
     draw := Returns tt;
     imencode := Returns [255; 216; 255];
     analyzer_env := Samples.no_face 0;
     basic := Samples.quiet_basic;
     demo := Samples.demo_draws |}.

(** A frame that [cv2.cvtColor] refuses. *)
Definition blind : basic_env :=
  {| gray_stats := Raises (Exception "cvtColor");
     basic_clock := 0;
     uniform_target := 85%float;
     change_draw := 0.5%float;
     uniform_adjust := 0%float |}.

(** The sampler of a process that has just started. *)
Definition at_start (g : globals) : world :=
  Api.sampling (Samples.started g).

(** The sampler after one call of the basic detector at time 0: its
    attributes hold "neutral", 85.0 and that time. *)
Definition settled : world :=
  snd (_detect_emotion_basic Samples.quiet_basic
                             (at_start Samples.cv_globals)).

(** A bright face with contrast, seen 3 s later: the target is "happy",
    drawn at 86, and the draw for the change allows it. *)
Definition bright : basic_env :=
  {| gray_stats := Returns (170%float, 60%float);
     basic_clock := 3000000;
     uniform_target := 86%float;
     change_draw := 0.5%float;
     uniform_adjust := 0%float |}.

End Camera.

(* ================================================================== *)
(** ** More of the endpoints (main.py, export_routes.py, simple_main.py) *)

Module Requests.
Import Py Api.
Local Open Scope py_scope.

(** A row as [create_detection] stores it for [employee] at time [now]:
    presence is 0 or 1, and emotion and confidence are absent exactly when
    it is 0. *)
Definition stored_by (employee : string) (now : Z) (r : DetectionLog) : Prop :=
  employee_id r = employee /\
  timestamp r = Some now /\
  (is_present r = 0 \/ is_present r = 1) /\
  (emotion r = None <-> is_present r = 0) /\
  (confidence r = None <-> is_present r = 0).

(** Whether a row counts for label [e] on lines 551-553. *)
Definition counted (e : string) (d : DetectionLog) : bool :=
  truthy_int (is_present d) && truthy_str (emotion d)
  && match emotion d with
     | Some e' => String.eqb e' e
     | None => false
     end.

(** The number of rows that count for label [e]. *)
Definition count_of (e : string) (detections : list DetectionLog) : Z :=
  Z.of_nat (List.length (filter (counted e) detections)).


(** The step of the loop on lines 551-553. *)
Definition count_step (emotion_counts : dict Z) (d : DetectionLog) : dict Z :=
  match emotion d with
  | Some e =>
      if truthy_str (emotion d) && truthy_int (is_present d)
      then set emotion_counts e (get emotion_counts e 0 + 1)
      else emotion_counts
  | None => emotion_counts
  end.

(** *** [get_detections] (main.py, lines 479-519) *)

(** [s.replace('Z', '+00:00')] *)
Fixpoint replace_Z (s : string) : string :=
  match s with
  | EmptyString => EmptyString
  | String c rest =>
      if Ascii.eqb c (Ascii.ascii_of_nat 90)     (* the letter Z *)
      then ("+00:00" ++ replace_Z rest)%string
      else String c (replace_Z rest)
  end.

(** [timestamp <= timestamp] on a nullable column, NULL lowest. *)
Definition ts_le (a b : option Z) : bool :=
  match a, b with
  | None, _ => true
  | Some _, None => false
  | Some x, Some y => x <=? y
  end.

(** [order_by(DetectionLog.timestamp.desc())]: newest first, rows of equal
    time in table order. *)
Fixpoint insert_desc (d : DetectionLog) (sorted : list DetectionLog)
  : list DetectionLog :=
  match sorted with
  | [] => [d]
  | d' :: rest =>
      if ts_le (timestamp d') (timestamp d) then d :: d' :: rest
      else d' :: insert_desc d rest
  end.

Definition order_desc (l : list DetectionLog) : list DetectionLog :=
  fold_right insert_desc [] l.

(** [.limit(limit)]; a negative limit is no limit, as in SQLite. *)
Definition limit_to (limit : Z) (l : list DetectionLog) : list DetectionLog :=
  if limit <? 0 then l else firstn (Z.to_nat limit) l.

(** A [datetime] as [fromisoformat] returns it: its date and time fields,
    counted in microseconds as for every [datetime] here, and the UTC
    offset of its [tzinfo], when the text gives one. *)
Record datetime := {
  fields : Z;
  utcoffset : option Z
}.

(** One optional bound of the query: absent or empty, no bound; otherwise
    the parsed time, and parsing may raise. *)
Definition parse_bound (fromisoformat : string -> outcome datetime)
           (bound : option string) : outcome (option datetime) :=
  match bound with
  | None | Some EmptyString => Returns None
  | Some s =>
      match fromisoformat (replace_Z s) with
      | Returns t => Returns (Some t)
      | Raises e => Raises e
      end
  end.

(** The rows the filters of lines 489-499 keep.  SQLAlchemy binds a
    [datetime] to SQLite as the text of its date and time fields and leaves
    the offset out; the column holds the fields of [datetime.utcnow()] in
    the same form, and such texts compare as the fields do.  A NULL
    time passes no comparison. *)
Definition matches (employee : string) (start end_ : option datetime)
           (d : DetectionLog) : bool :=
  String.eqb (employee_id d) employee
  && match start with
     | Some t0 => match timestamp d with
                  | Some t => fields t0 <=? t
                  | None => false
                  end
     | None => true
     end
  && match end_ with
     | Some t1 => match timestamp d with
                  | Some t => t <=? fields t1
                  | None => false
                  end
     | None => true
     end.

Definition to_response (d : DetectionLog) : DetectionResponse :=
  {| r_id := id d;
     r_employee_id := employee_id d;
     r_timestamp := timestamp d;
     r_is_present := negb (is_present d =? 0);
     r_emotion := emotion d;
     r_confidence := confidence d |}.

Section WithParser.
(** [datetime.fromisoformat], of the standard library. *)
Variable fromisoformat : string -> outcome datetime.

(** [get_detections]; [queried] is what running the query does. *)
Definition get_detections (employee : string) (limit : Z)
           (start_date end_date : option string) (queried : outcome unit)
  : M server (list DetectionResponse) :=
  db_open ;;
  try_finally
    (try_except
       (start <- call (parse_bound fromisoformat start_date) ;;
        end_ <- call (parse_bound fromisoformat end_date) ;;
        call queried ;;
        d <- get_db ;;
        let detections :=
          limit_to limit
            (order_desc (filter (matches employee start end_) (rows d))) in
        ret (map to_response detections))
       (fun e =>
          raise (HTTPException 400 ("Invalid date format: " ++ str e))))
    db_close.
End WithParser.

(** The times of a list of responses never increase: every response is at
    least as recent as all that follow it. *)
Fixpoint newest_first (l : list DetectionResponse) : Prop :=
  match l with
  | [] => True
  | a :: rest =>
      Forall (fun b => ts_le (r_timestamp b) (r_timestamp a) = true) rest
      /\ newest_first rest
  end.

(** A request whose [db.refresh] fails after the commit. *)
Definition stale : db_env :=
  {| add_result := Returns tt;
     commit_result := Returns tt;
     refresh_result := Raises (Exception "refresh");
     utcnow := 1000000 |}.

(** Row [r] as stored with primary key [i] at time [t]. *)
Definition stored (i t : Z) (r : DetectionLog) : DetectionLog :=
  {| id := Some i;
     employee_id := employee_id r;
     timestamp := Some t;
     is_present := is_present r;
     emotion := emotion r;
     confidence := confidence r |}.

(** A process whose table holds two rows of employee EMP001. *)
Definition recorded : server :=
  {| sampling := sampling (Samples.started Samples.demo_globals);
     db := {| rows := [stored 1 1000000 (Samples.present "happy" 91.5);
                       stored 2 2000000 Samples.absent];
              uncommitted := [];
              history := [] |} |}.

(** A parser that accepts no text. *)
Definition no_parser (s : string) : outcome datetime :=
  Raises (Exception "Invalid isoformat string").

(** A parser that reads one text: 1.5 s after the epoch by its fields, at
    two hours east of UTC (as an instant, two hours before that). *)
Definition one_text_parser (s : string) : outcome datetime :=
  if String.eqb s "1970-01-01T00:00:01.500000+02:00"
  then Returns {| fields := 1500000; utcoffset := Some 7200000000 |}
  else Raises (Exception "Invalid isoformat string").

(** A process whose table holds three rows of employee EMP001, stored 1, 2
    and 3 s after the epoch. *)
Definition three_rows : server :=
  {| sampling := sampling (Samples.started Samples.demo_globals);
     db := {| rows := [stored 1 1000000 (Samples.present "happy" 91.5);
                       stored 2 2000000 Samples.absent;
                       stored 3 3000000 (Samples.present "sad" 72.25)];
              uncommitted := [];
              history := [] |} |}.

End Requests.

(* ================================================================== *)
(** ** The PDF export (export_routes.py) *)

Module Reports.
Import Py Api.

(** The summary [export_pdf] computes (export_routes.py, lines 283-300):
    no rows is an error, and the division is not guarded. *)
Definition export_pdf_analytics (detections : list DetectionLog)
  : outcome AnalyticsResponse :=
  match detections with
  | [] => Raises (HTTPException 404 "No data found for export")
  | _ =>
      let total_detections := Z.of_nat (List.length detections) in
      let present_count :=
        Z.of_nat (List.length
                    (filter (fun d => truthy_int (is_present d)) detections)) in
      match int_truediv present_count total_detections with
      | Raises e => Raises e
      | Returns q =>
          Returns {| total_detections := total_detections;
                     presence_percentage := PrimFloat.mul q 100;
                     emotion_distribution := count_emotions detections;
                     working_hours :=
                       PrimFloat.div
                         (PrimFloat.mul (float_of_int present_count) 0.5) 60 |}
      end
  end.

End Reports.

(* ================================================================== *)
(** ** The server without computer vision (simple_main.py) *)

Module Simple.
Import Py Api.
Local Open Scope py_scope.

(** What the [random] module gives in one call of [get_detection]. *)
Record mock_env := {
  random_draw : float;                    (* random.random() *)
  mock_choice : list string -> string;    (* random.choice *)
  mock_uniform : float                    (* random.uniform(70, 95) *)
}.

(** [MockEmotionDetector.emotions] *)
Definition emotions : list string :=
  ["happy"; "neutral"; "sad"; "surprise"]%string.

(** [MockEmotionDetector.get_detection] (lines 67-72) *)
Definition get_detection (env : mock_env)
  : bool * option string * option float :=
  let is_present := PrimFloat.ltb 0.3 (random_draw env) in
  let emotion := if is_present then Some (mock_choice env emotions) else None in
  let confidence :=
    if is_present then Some (round (mock_uniform env) 1) else None in
  (is_present, emotion, confidence).

(** [create_detection] (lines 84-109): no handler, only the [finally].
    The sampler part of the process is not used. *)
Definition create_detection (employee_id : string) (mock : mock_env)
           (env : db_env) : M server DetectionResponse :=
  db_open ;;
  try_finally
    (let '(is_present, emotion, confidence) := get_detection mock in
     let detection :=
       {| id := None;
          employee_id := employee_id;
          timestamp := None;
          is_present := if is_present : bool then 1 else 0;
          emotion := emotion;
          confidence := confidence |} in
     db_add env detection ;;
     db_commit env ;;
     detection <- db_refresh env ;;
     ret {| r_id := id detection;
            r_employee_id := Api.employee_id detection;
            r_timestamp := timestamp detection;
            r_is_present := negb (Api.is_present detection =? 0);
            r_emotion := Api.emotion detection;
            r_confidence := Api.confidence detection |})
    db_close.

(** Draws that make the mock detector report a happy employee. *)
Definition sunny : mock_env :=
  {| random_draw := 0.8%float;
     mock_choice := fun _ => "happy"%string;
     mock_uniform := 82.44%float |}.

End Simple.

(* ================================================================== *)
(** ** The web socket registry (main.py, lines 342-356) *)

Module Connections.
Import Py.
Local Open Scope py_scope.

(** A [WebSocket] object, by identity: the class defines no [__eq__]. *)
Definition WebSocket := Z.

Record ConnectionManager := {
  active_connections : list WebSocket
}.

(** [list.remove(x)] on a list that holds [x]: the first one goes. *)
Fixpoint list_remove (x : WebSocket) (l : list WebSocket) : list WebSocket :=
  match l with
  | [] => []
  | y :: rest => if y =? x then rest else y :: list_remove x rest
  end.

(** [connect]; [accepted] is what [websocket.accept()] does. *)
Definition connect (websocket : WebSocket) (accepted : outcome unit)
  : M ConnectionManager unit :=
  call accepted ;;
  fun self =>
    (Returns tt,
     {| active_connections := active_connections self ++ [websocket] |}).

(** [disconnect] *)
Definition disconnect (websocket : WebSocket) : M ConnectionManager unit :=
  fun self =>
    if existsb (Z.eqb websocket) (active_connections self)
    then (Returns tt,
          {| active_connections :=
               list_remove websocket (active_connections self) |})
    else (Returns tt, self).

(** [send_personal_message]; [sent] is what [websocket.send_text] does. *)
Definition send_personal_message (sent : outcome unit) (websocket : WebSocket)
  : M ConnectionManager unit :=
  try_except (call sent) (fun _ => disconnect websocket).

(** How many times a socket is registered. *)
Definition registrations (websocket : WebSocket) (self : ConnectionManager)
  : nat :=
  List.length (filter (Z.eqb websocket) (active_connections self)).

(** The registered sockets other than [websocket], in order. *)
Definition others (websocket : WebSocket) (self : ConnectionManager)
  : list WebSocket :=
  filter (fun w => negb (w =? websocket)) (active_connections self).

(** A registry of two sockets. *)
Definition two_clients : ConnectionManager :=
  {| active_connections := [1; 2] |}.

End Connections.


(* ================================================================== *)
(** ** Facts about the Python values *)

Module PyFacts.
Import Py.

Lemma get_set_same {V} (d : dict V) k v default :
  get (set d k v) k default = v.
Proof.
  induction d as [|[k' v'] d IH]; simpl.
  - now rewrite String.eqb_refl.
  - destruct (String.eqb k' k) eqn:E; simpl; rewrite E; auto.
Qed.

Lemma get_set_other {V} (d : dict V) k k' v default :
  k <> k' -> get (set d k v) k' default = get d k' default.
Proof.
  intros Hne. induction d as [|[k0 v0] d IH]; simpl.
  - destruct (String.eqb k k') eqn:E; auto.
    apply String.eqb_eq in E. contradiction.
  - destruct (String.eqb k0 k) eqn:E; simpl.
    + apply String.eqb_eq in E. subst k0.
      destruct (String.eqb k k') eqn:E'; auto.
      apply String.eqb_eq in E'. contradiction.
    + now rewrite IH.
Qed.

Lemma get_absent {V} (d : dict V) k default :
  ~ In k (keys d) -> get d k default = default.
Proof.
  induction d as [|[k' v'] d IH]; simpl; intros Hn; auto.
  destruct (String.eqb k' k) eqn:E.
  - apply String.eqb_eq in E. tauto.
  - apply IH. tauto.
Qed.

Section MaxZ.
Context {A : Type} (key : A -> Z).

Lemma max_from_In best rest :
  In (max_from Z.ltb key best rest) (best :: rest).
Proof.
  revert best. induction rest as [|x rest IH]; intros best; simpl.
  - now left.
  - specialize (IH (if key best <? key x then x else best)).
    destruct IH as [IH | IH]; [|now auto].
    rewrite <- IH. destruct (key best <? key x); auto.
Qed.

Lemma max_from_ge best rest :
  key best <= key (max_from Z.ltb key best rest).
Proof.
  revert best. induction rest as [|x rest IH]; intros best; simpl.
  - lia.
  - specialize (IH (if key best <? key x then x else best)).
    destruct (Z.ltb_spec (key best) (key x)); lia.
Qed.

Lemma max_from_upper best rest x :
  In x (best :: rest) -> key x <= key (max_from Z.ltb key best rest).
Proof.
  revert best. induction rest as [|y rest IH]; intros best Hin; simpl.
  - destruct Hin as [-> | []]. lia.
  - pose proof (max_from_ge (if key best <? key y then y else best) rest) as Hge.
    destruct Hin as [-> | [-> | Hin]].
    + destruct (Z.ltb_spec (key x) (key y)); lia.
    + destruct (Z.ltb_spec (key best) (key x)); lia.
    + apply IH. now right.
Qed.

Lemma max_spec l m :
  max Z.ltb key l = Some m ->
  In m l /\ forall x, In x l -> key x <= key m.
Proof.
  destruct l as [|a l]; simpl; [discriminate|].
  intros [= <-]. split.
  - apply max_from_In.
  - intros x. apply max_from_upper.
Qed.

Lemma max_some l : l <> [] -> exists m, max Z.ltb key l = Some m.
Proof. destruct l; [congruence | simpl; eauto]. Qed.
End MaxZ.

End PyFacts.

(* ================================================================== *)
(** ** The stabilizer *)

Module StabilizerFacts.
Import Py PyFacts Stabilizer.

(** *** The vote's ingredients *)

Lemma occurrences_cons emo o buffer :
  occurrences emo (o :: buffer) =
  (if String.eqb (fst o) emo then 1 else 0) + occurrences emo buffer.
Proof.
  unfold occurrences. cbn [filter].
  destruct (String.eqb (fst o) emo); cbn [List.length]; lia.
Qed.

Lemma occurrences_nonneg emo buffer : 0 <= occurrences emo buffer.
Proof. unfold occurrences. lia. Qed.

Lemma occurrences_le_length emo buffer :
  occurrences emo buffer <= Z.of_nat (List.length buffer).
Proof.
  unfold occurrences. apply Nat2Z.inj_le, filter_length_le.
Qed.

(** The dict built on lines 61-63 maps each label to its number of
    occurrences; [d] is the dict built so far. *)
Lemma count_step_get (buffer : list observation) (d : dict Z) emo :
  get (fold_left (fun counts (o : observation) =>
                    set counts (fst o) (get counts (fst o) 0 + 1)) buffer d)
      emo 0
  = get d emo 0 + occurrences emo buffer.
Proof.
  revert d. induction buffer as [|o buffer IH]; intros d; simpl.
  - unfold occurrences. simpl. lia.
  - rewrite IH, occurrences_cons.
    destruct (String.eqb_spec (fst o) emo) as [->|Hne].
    + rewrite get_set_same. lia.
    + rewrite get_set_other by assumption. lia.
Qed.

Lemma count_emotions_get buffer emo :
  get (count_emotions buffer) emo 0 = occurrences emo buffer.
Proof. unfold count_emotions. now rewrite count_step_get. Qed.

Lemma count_emotions_keys_nonempty buffer :
  buffer <> [] -> keys (count_emotions buffer) <> [].
Proof.
  intros Hne Hk.
  destruct buffer as [|o buffer]; [congruence|].
  assert (H : 0 < occurrences (fst o) (o :: buffer)).
  { rewrite occurrences_cons, String.eqb_refl.
    pose proof (occurrences_nonneg (fst o) buffer). lia. }
  rewrite <- count_emotions_get in H.
  rewrite get_absent in H; [lia|]. rewrite Hk. simpl. tauto.
Qed.

(** Line 65 picks a label no other label occurs more often than. *)
Lemma best_of_mode buffer best :
  best_of (count_emotions buffer) = Some best ->
  0 < occurrences best buffer /\
  forall emo, occurrences emo buffer <= occurrences best buffer.
Proof.
  unfold best_of. intros H. apply max_spec in H. destruct H as [Hin Hmax].
  assert (Hle : forall emo, occurrences emo buffer <= occurrences best buffer).
  { intros emo.
    destruct (in_dec string_dec emo (keys (count_emotions buffer))) as [Hk|Hk].
    - specialize (Hmax emo Hk). now rewrite !count_emotions_get in Hmax.
    - pose proof (get_absent (count_emotions buffer) emo 0 Hk) as H0.
      rewrite count_emotions_get in H0.
      pose proof (occurrences_nonneg best buffer). lia. }
  split; [|exact Hle].
  destruct buffer as [|o buffer]; [simpl in Hin; tauto|].
  specialize (Hle (fst o)).
  rewrite (occurrences_cons (fst o) o), String.eqb_refl in Hle.
  pose proof (occurrences_nonneg (fst o) buffer). lia.
Qed.

Lemma best_of_some buffer :
  buffer <> [] -> exists best, best_of (count_emotions buffer) = Some best.
Proof.
  intros Hne. apply max_some. now apply count_emotions_keys_nonempty.
Qed.

(** *** The bounded buffer *)

Lemma push_nonempty buffer o : push buffer o <> [].
Proof.
  unfold push. destruct (5 <? _) eqn:E.
  - destruct buffer as [|a [|b buffer]]; simpl in *; discriminate.
  - destruct buffer; discriminate.
Qed.

Lemma push_length buffer o :
  (List.length buffer <= 5)%nat -> (List.length (push buffer o) <= 5)%nat.
Proof.
  intros Hlen. unfold push.
  assert (Hl : List.length (buffer ++ [o]) = S (List.length buffer))
    by (rewrite length_app; simpl; lia).
  destruct (Z.ltb_spec 5 (Z.of_nat (List.length (buffer ++ [o])))) as [Hlt|Hge].
  - destruct (buffer ++ [o]) eqn:E; simpl in *; lia.
  - lia.
Qed.

Lemma push_not_full buffer o :
  (List.length buffer < 5)%nat -> push buffer o = buffer ++ [o].
Proof.
  intros Hlen. unfold push.
  assert (Hl : List.length (buffer ++ [o]) = S (List.length buffer))
    by (rewrite length_app; simpl; lia).
  destruct (Z.ltb_spec 5 (Z.of_nat (List.length (buffer ++ [o])))); [lia|reflexivity].
Qed.

Lemma push_full oldest buffer o :
  List.length (oldest :: buffer) = 5%nat ->
  push (oldest :: buffer) o = buffer ++ [o].
Proof.
  intros Hlen. unfold push.
  assert (Hl : List.length ((oldest :: buffer) ++ [o]) = 6%nat)
    by (rewrite length_app, Hlen; reflexivity).
  rewrite Hl. reflexivity.
Qed.


(** *** Unfolding a call *)

Section Calls.
Variable np_mean : list float -> float.

Lemma detect_emotion_skipped self env :
  (frame_count self + 1) mod 3 <> 0 ->
  detect_emotion np_mean self env =
  ((current_emotion self, emotion_confidence self), count_frame self).
Proof.
  intros H. unfold detect_emotion. cbn [count_frame frame_count].
  destruct (Z.eqb_spec ((frame_count self + 1) mod 3) 0); [contradiction|].
  reflexivity.
Qed.

Lemma detect_emotion_processed self env :
  (frame_count self + 1) mod 3 = 0 ->
  detect_emotion np_mean self env = classify np_mean (count_frame self) env.
Proof.
  intros H. unfold detect_emotion. cbn [count_frame frame_count].
  rewrite H. reflexivity.
Qed.

(** The boolean test of lines 72-75, read as a proposition. *)
Lemma commit_test_spec self env best :
  negb (String.eqb best (current_emotion self))
  && (3 <=? get (count_emotions (emotion_buffer self)) best 0)
  && total_seconds_gt (clock env - last_emotion_change self) 2
  && PrimFloat.ltb 60 (np_mean (confidences_of best (emotion_buffer self)))
  = true
  <->
  best <> current_emotion self /\
  3 <= occurrences best (emotion_buffer self) /\
  2000000 < clock env - last_emotion_change self /\
  PrimFloat.ltb 60 (np_mean (confidences_of best (emotion_buffer self))) = true.
Proof.
  rewrite !andb_true_iff, negb_true_iff, count_emotions_get.
  unfold total_seconds_gt.
  rewrite Z.leb_le, Z.ltb_lt.
  destruct (String.eqb_spec best (current_emotion self)); split;
    intros H; repeat split; try tauto; try lia; try congruence;
    destruct H as [H ?]; try destruct H as [[? ?] ?]; try congruence; try lia.
Qed.

(** The vote, by cases on its test. *)
Lemma vote_cases self env :
  emotion_buffer self <> [] ->
  exists best,
    best_of (count_emotions (emotion_buffer self)) = Some best /\
    ((best <> current_emotion self /\
      3 <= occurrences best (emotion_buffer self) /\
      2000000 < clock env - last_emotion_change self /\
      PrimFloat.ltb 60 (np_mean (confidences_of best (emotion_buffer self)))
      = true) /\
     vote np_mean self env =
     Some {| current_emotion := best;
             emotion_confidence :=
               np_mean (confidences_of best (emotion_buffer self));
             last_emotion_change := clock env;
             emotion_buffer := emotion_buffer self;
             frame_count := frame_count self;
             ml_available := ml_available self |}
     \/
     ~ (best <> current_emotion self /\
        3 <= occurrences best (emotion_buffer self) /\
        2000000 < clock env - last_emotion_change self /\
        PrimFloat.ltb 60 (np_mean (confidences_of best (emotion_buffer self)))
        = true) /\
     vote np_mean self env = Some self).
Proof.
  intros Hne. destruct (best_of_some _ Hne) as [best Hbest].
  exists best. split; [exact Hbest|].
  unfold vote. rewrite Hbest.
  destruct (Z.leb_spec 3 (Z.of_nat (List.length (emotion_buffer self))))
    as [Hlen|Hlen].
  - destruct (negb _ && _ && _ && _) eqn:Htest.
    + left. split; [|reflexivity]. now apply commit_test_spec.
    + right. split; [|reflexivity].
      intros Hc. apply commit_test_spec in Hc. congruence.
  - right. split; [|reflexivity].
    intros (_ & Hocc & _).
    pose proof (occurrences_le_length best (emotion_buffer self)). lia.
Qed.

Lemma fallback_dwell self env :
  clock env - last_emotion_change self <= 10000000 ->
  _fallback_emotion self env =
  ((current_emotion self, emotion_confidence self), self).
Proof.
  intros H. unfold _fallback_emotion, total_seconds_gt.
  destruct (Z.ltb_spec (10 * 1000000) (clock env - last_emotion_change self));
    [lia | reflexivity].
Qed.

Lemma vote_total self o env :
  exists self', vote np_mean (buffered self o) env = Some self'.
Proof.
  destruct (vote_cases (buffered self o) env) as (best & _ & [[_ H]|[_ H]]);
    [apply push_nonempty | eauto | eauto].
Qed.

Lemma classify_voted self env emotions others label score :
  ml_available self = true ->
  fer_output env = FerResults (emotions :: others) ->
  dominant emotions = Some (label, score) ->
  classify np_mean self env =
  match vote np_mean (buffered self (label, PrimFloat.mul score 100)) env with
  | Some s => ((current_emotion s, emotion_confidence s), s)
  | None =>
      _fallback_emotion (buffered self (label, PrimFloat.mul score 100)) env
  end.
Proof.
  intros Hml Hfer Hdom. unfold classify. rewrite Hfer, Hdom.
  destruct self as [c e l b f m]. cbn in Hml. subst m. reflexivity.
Qed.

(** A call follows the branch [path_of] names. *)
Lemma detect_emotion_by_path self env :
  match path_of self env with
  | Skipped =>
      (frame_count self + 1) mod 3 <> 0 /\
      detect_emotion np_mean self env =
      ((current_emotion self, emotion_confidence self), count_frame self)
  | Fallback =>
      (frame_count self + 1) mod 3 = 0 /\
      detect_emotion np_mean self env =
      _fallback_emotion (count_frame self) env
  | Voted =>
      (frame_count self + 1) mod 3 = 0 /\
      exists emotions others label score self',
        ml_available self = true /\
        fer_output env = FerResults (emotions :: others) /\
        dominant emotions = Some (label, score) /\
        vote np_mean
             (buffered (count_frame self) (label, PrimFloat.mul score 100))
             env = Some self' /\
        detect_emotion np_mean self env =
        ((current_emotion self', emotion_confidence self'), self')
  end.
Proof.
  unfold path_of.
  destruct (Z.eqb_spec ((frame_count self + 1) mod 3) 0) as [Hz|Hnz];
    cbn [negb].
  2:{ split; [assumption | now apply detect_emotion_skipped]. }
  rewrite (detect_emotion_processed _ _ Hz).
  destruct (ml_available self) eqn:Hml; cbn [negb].
  2:{ split; [assumption|]. unfold classify.
      cbn [count_frame ml_available]. now rewrite Hml. }
  destruct (fer_output env) as [|[|emotions others]] eqn:Hfer;
    try (split; [assumption|]; unfold classify;
         cbn [count_frame ml_available]; now rewrite Hml, Hfer).
  destruct (dominant emotions) as [[label score]|] eqn:Hdom.
  2:{ split; [assumption|]. unfold classify.
      cbn [count_frame ml_available]. now rewrite Hml, Hfer, Hdom. }
  split; [assumption|].
  destruct (vote_total (count_frame self) (label, PrimFloat.mul score 100) env)
    as [self' Hv].
  exists emotions, others, label, score, self'.
  repeat split; try assumption.
  rewrite (classify_voted (count_frame self) env emotions others label score Hml Hfer Hdom), Hv. reflexivity.
Qed.

Lemma voted_call self env emotions others label score :
  (frame_count self + 1) mod 3 = 0 ->
  ml_available self = true ->
  fer_output env = FerResults (emotions :: others) ->
  dominant emotions = Some (label, score) ->
  exists self',
    vote np_mean
         (buffered (count_frame self) (label, PrimFloat.mul score 100)) env
    = Some self' /\
    detect_emotion np_mean self env =
    ((current_emotion self', emotion_confidence self'), self').
Proof.
  intros Hz Hml Hfer Hdom.
  destruct (vote_total (count_frame self) (label, PrimFloat.mul score 100) env)
    as [self' Hv].
  exists self'. split; [exact Hv|].
  rewrite (detect_emotion_processed _ _ Hz).
  now rewrite (classify_voted (count_frame self) env emotions others label
                 score Hml Hfer Hdom), Hv.
Qed.

(** C1: a call that buffers a classifier result replaces the current
    (emotion, confidence) by the buffer's mode and the mean confidence of
    the mode's entries exactly when the mode differs from the current
    emotion, occurs at least 3 times in the buffer, more than 2.0 s have
    passed since the last change and the mean confidence exceeds 60;
    otherwise emotion, confidence and time of last change stay as they
    were.  The mean is taken over the confidences, in buffer order, of
    the buffered entries whose label is the mode, and of no other entry
    (line 66). *)
Theorem vote_commits_iff_all_four self env emotions others label score :
  (frame_count self + 1) mod 3 = 0 ->
  ml_available self = true ->
  fer_output env = FerResults (emotions :: others) ->
  dominant emotions = Some (label, score) ->
  let buffer := push (emotion_buffer self) (label, PrimFloat.mul score 100) in
  let elapsed := clock env - last_emotion_change self in
  let out := detect_emotion np_mean self env in
  exists mode,
    best_of (count_emotions buffer) = Some mode /\
    0 < occurrences mode buffer /\
    (forall emo, occurrences emo buffer <= occurrences mode buffer) /\
    emotion_buffer (snd out) = buffer /\
    let mean_confidence :=
      np_mean (map snd (filter (fun o => String.eqb (fst o) mode) buffer)) in
    let all_four :=
      mode <> current_emotion self /\
      3 <= occurrences mode buffer /\
      2000000 < elapsed /\
      PrimFloat.ltb 60 mean_confidence = true in
    (all_four ->
     current_emotion (snd out) = mode /\
     emotion_confidence (snd out) = mean_confidence /\
     last_emotion_change (snd out) = clock env /\
     fst out = (mode, mean_confidence)) /\
    (~ all_four ->
     current_emotion (snd out) = current_emotion self /\
     emotion_confidence (snd out) = emotion_confidence self /\
     last_emotion_change (snd out) = last_emotion_change self /\
     fst out = (current_emotion self, emotion_confidence self)).
Proof.
  intros Hz Hml Hfer Hdom buffer elapsed out.
  set (self1 := buffered (count_frame self) (label, PrimFloat.mul score 100)).
  destruct (voted_call self env emotions others label score Hz Hml Hfer Hdom)
    as (self' & Hvote & Hout).
  fold self1 in Hvote. fold out in Hout.
  destruct (vote_cases self1 env) as (mode & Hbest & Hcases);
    [apply push_nonempty|].
  change (emotion_buffer self1) with buffer in Hbest, Hcases.
  change (current_emotion self1) with (current_emotion self) in Hcases.
  change (last_emotion_change self1) with (last_emotion_change self) in Hcases.
  fold elapsed in Hcases.
  destruct (best_of_mode _ _ Hbest) as [Hpos Hmax].
  exists mode. split; [exact Hbest|]. split; [exact Hpos|]. split; [exact Hmax|].
  destruct Hcases as [[Hall Hv]|[Hnot Hv]]; rewrite Hv in Hvote;
    injection Hvote as <-; rewrite Hout;
    cbn [fst snd current_emotion emotion_confidence last_emotion_change
         emotion_buffer].
  - split; [reflexivity|]. split; [auto|]. intros Hn. contradiction.
  - split; [reflexivity|]. split; [intros Hc; contradiction|].
    intros _. subst self1. cbn. auto.
Qed.

(** C2, as amended: in a state whose buffer holds fewer than 3 entries
    a call leaves [current_emotion] as it was, provided that a call on
    the fallback path comes at most 10 s after the last change and a
    call that buffers a classifier result finds fewer than 2 entries
    (so that fewer than 3 are voted on). *)
Theorem short_buffer_keeps_emotion self env :
  (List.length (emotion_buffer self) < 3)%nat ->
  (path_of self env = Fallback ->
   clock env - last_emotion_change self <= 10000000) ->
  (path_of self env = Voted ->
   (List.length (emotion_buffer self) < 2)%nat) ->
  current_emotion (snd (detect_emotion np_mean self env))
  = current_emotion self.
Proof.
  intros Hlen Hfb Hvt.
  pose proof (detect_emotion_by_path self env) as Hp.
  destruct (path_of self env).
  - destruct Hp as [_ ->]. reflexivity.
  - destruct Hp as [_ ->].
    rewrite fallback_dwell by (apply Hfb; reflexivity). reflexivity.
  - destruct Hp as (_ & emotions & others & label & score & self' & _ & _ & _
                    & Hv & ->).
    specialize (Hvt eq_refl).
    unfold vote in Hv.
    cbn [buffered count_frame emotion_buffer] in Hv.
    rewrite push_not_full in Hv by lia.
    rewrite length_app in Hv. cbn [List.length] in Hv.
    destruct (Z.leb_spec 3 (Z.of_nat (List.length (emotion_buffer self) + 1)));
      [lia|].
    injection Hv as <-. reflexivity.
Qed.

(** C3: a call whose clock reading is less than 2.0 s after the last
    recorded change leaves [current_emotion], [emotion_confidence] and
    [last_emotion_change] as they were, on every path and for every
    buffer, and returns the unchanged pair. *)
Theorem dwell_blocks_change self env :
  clock env - last_emotion_change self < 2000000 ->
  let out := detect_emotion np_mean self env in
  current_emotion (snd out) = current_emotion self /\
  emotion_confidence (snd out) = emotion_confidence self /\
  last_emotion_change (snd out) = last_emotion_change self /\
  fst out = (current_emotion self, emotion_confidence self).
Proof.
  intros Hdwell out. subst out.
  pose proof (detect_emotion_by_path self env) as Hp.
  destruct (path_of self env).
  - destruct Hp as [_ ->]. cbn. auto.
  - destruct Hp as [_ ->].
    rewrite fallback_dwell by (cbn [count_frame last_emotion_change]; lia).
    cbn. auto.
  - destruct Hp as (_ & emotions & others & label & score & self' & _ & _ & _
                    & Hv & ->).
    set (self1 := buffered (count_frame self) (label, PrimFloat.mul score 100)) in *.
    destruct (vote_cases self1 env) as (mode & _ & [[Hall _]|[_ Hv']]);
      [apply push_nonempty | |].
    + destruct Hall as (_ & _ & Hel & _).
      change (last_emotion_change self1) with (last_emotion_change self) in Hel.
      lia.
    + rewrite Hv' in Hv. injection Hv as <-. cbn. auto.
Qed.


(** *** What every call preserves *)

Lemma fallback_frame self env :
  let out := _fallback_emotion self env in
  frame_count (snd out) = frame_count self /\
  ml_available (snd out) = ml_available self /\
  emotion_buffer (snd out) = emotion_buffer self /\
  fst out = (current_emotion (snd out), emotion_confidence (snd out)).
Proof.
  unfold _fallback_emotion.
  destruct (total_seconds_gt _ 10); cbn; auto.
Qed.

Lemma vote_frame self env self' :
  vote np_mean self env = Some self' ->
  frame_count self' = frame_count self /\
  ml_available self' = ml_available self /\
  emotion_buffer self' = emotion_buffer self.
Proof.
  unfold vote.
  destruct (3 <=? _); [|now intros [= <-]].
  destruct (best_of _); [|discriminate].
  destruct (negb _ && _ && _ && _); intros [= <-]; cbn; auto.
Qed.

Lemma detect_emotion_frame self env :
  let out := detect_emotion np_mean self env in
  frame_count (snd out) = frame_count self + 1 /\
  ml_available (snd out) = ml_available self /\
  fst out = (current_emotion (snd out), emotion_confidence (snd out)) /\
  (emotion_buffer (snd out) = emotion_buffer self \/
   exists o, emotion_buffer (snd out) = push (emotion_buffer self) o).
Proof.
  cbn zeta.
  pose proof (detect_emotion_by_path self env) as Hp.
  destruct (path_of self env).
  - destruct Hp as [_ ->]. cbn. auto.
  - destruct Hp as [_ ->].
    destruct (fallback_frame (count_frame self) env) as (Hf & Hm & Hb & Hr).
    rewrite Hf, Hm, Hb, Hr. cbn. auto.
  - destruct Hp as (_ & emotions & others & label & score & self' & _ & _ & _
                    & Hv & ->).
    apply vote_frame in Hv. destruct Hv as (Hf & Hm & Hb).
    cbn [fst snd]. rewrite Hf, Hm, Hb. cbn. eauto 6.
Qed.

Lemma run_snoc self envs env :
  run np_mean self (envs ++ [env]) =
  snd (detect_emotion np_mean (run np_mean self envs) env).
Proof. unfold run. now rewrite fold_left_app. Qed.

Lemma run_frame_count self envs :
  frame_count (run np_mean self envs) =
  frame_count self + Z.of_nat (List.length envs).
Proof.
  induction envs as [|env envs IH] using rev_ind.
  - cbn. lia.
  - rewrite run_snoc, length_app.
    destruct (detect_emotion_frame (run np_mean self envs) env) as [-> _].
    rewrite IH. cbn [List.length]. lia.
Qed.

Lemma run_buffer_bounded self envs :
  (List.length (emotion_buffer self) <= 5)%nat ->
  (List.length (emotion_buffer (run np_mean self envs)) <= 5)%nat.
Proof.
  intros H0. induction envs as [|env envs IH] using rev_ind; [exact H0|].
  rewrite run_snoc.
  destruct (detect_emotion_frame (run np_mean self envs) env)
    as (_ & _ & _ & [-> | [o ->]]); [exact IH | now apply push_length].
Qed.

(** C4: counting invocations from construction, invocation number [n]
    does the classification work exactly when [n] is a multiple of 3;
    every other invocation returns the current (emotion, confidence) pair
    and changes no field but [frame_count]. *)
Theorem only_every_third_call_classifies now ml envs env :
  let self := run np_mean (init now ml) envs in
  let n := Z.of_nat (List.length envs) + 1 in
  let out := detect_emotion np_mean self env in
  (n mod 3 <> 0 ->
   fst out = (current_emotion self, emotion_confidence self) /\
   snd out = count_frame self /\
   current_emotion (snd out) = current_emotion self /\
   emotion_confidence (snd out) = emotion_confidence self /\
   last_emotion_change (snd out) = last_emotion_change self /\
   emotion_buffer (snd out) = emotion_buffer self /\
   ml_available (snd out) = ml_available self /\
   frame_count (snd out) = n) /\
  (n mod 3 = 0 -> out = classify np_mean (count_frame self) env).
Proof.
  intros self n out.
  assert (Hn : frame_count self + 1 = n).
  { subst self n. rewrite run_frame_count. cbn [init frame_count]. lia. }
  split; intros Hmod; subst out.
  - rewrite detect_emotion_skipped by (rewrite Hn; exact Hmod).
    cbn. repeat split; auto.
  - apply detect_emotion_processed. now rewrite Hn.
Qed.

(** C5: after any sequence of calls from the initial state the buffer
    holds at most 5 entries; a call that buffers a classifier result
    appends it at the end, and when the buffer was full the entry
    dropped is the oldest one. *)
Theorem buffer_bounded_fifo now ml envs :
  let self := run np_mean (init now ml) envs in
  (List.length (emotion_buffer self) <= 5)%nat /\
  forall env emotions others label score,
    (frame_count self + 1) mod 3 = 0 ->
    ml_available self = true ->
    fer_output env = FerResults (emotions :: others) ->
    dominant emotions = Some (label, score) ->
    let o := (label, PrimFloat.mul score 100) in
    let buffer' := emotion_buffer (snd (detect_emotion np_mean self env)) in
    ((List.length (emotion_buffer self) < 5)%nat ->
     buffer' = emotion_buffer self ++ [o]) /\
    (forall oldest rest,
        emotion_buffer self = oldest :: rest ->
        List.length (emotion_buffer self) = 5%nat ->
        buffer' = rest ++ [o]).
Proof.
  intros self. split.
  - apply run_buffer_bounded. cbn. lia.
  - intros env emotions others label score Hz Hml Hfer Hdom o buffer'.
    assert (Hb : buffer' = push (emotion_buffer self) o).
    { destruct (voted_call self env emotions others label score
                  Hz Hml Hfer Hdom) as (self' & Hv & Hout).
      subst buffer'. rewrite Hout. apply vote_frame in Hv.
      destruct Hv as (_ & _ & Hb). exact Hb. }
    split.
    + intros Hlen. rewrite Hb. now apply push_not_full.
    + intros oldest rest Hcons Hlen. rewrite Hb, Hcons.
      apply push_full. now rewrite <- Hcons.
Qed.


(** *** The confidence threshold *)

Lemma above_70_above_60 (u : float) :
  PrimFloat.leb 70 u = true -> PrimFloat.ltb 60 u = true.
Proof.
  rewrite leb_spec, ltb_spec.
  replace (Prim2SF 70) with (S754_finite false 4925812092436480 (-46))
    by (vm_compute; reflexivity).
  replace (Prim2SF 60) with (S754_finite false 8444249301319680 (-47))
    by (vm_compute; reflexivity).
  destruct (Prim2SF u) as [s|s| |s m e]; unfold SFleb, SFltb, SFcompare;
    try destruct s; try discriminate; try reflexivity.
  destruct (Z.compare_spec (-46) e); destruct (Z.compare_spec (-47) e);
    try lia; try discriminate; try reflexivity.
Qed.

Lemma fallback_confident self env :
  uniform_in_range env ->
  PrimFloat.ltb 60 (emotion_confidence self) = true ->
  PrimFloat.ltb 60 (emotion_confidence (snd (_fallback_emotion self env)))
  = true.
Proof.
  intros [Hlo _] Hself. unfold _fallback_emotion.
  destruct (total_seconds_gt _ 10); cbn; [now apply above_70_above_60|exact Hself].
Qed.

Lemma vote_confident self env self' :
  vote np_mean self env = Some self' ->
  PrimFloat.ltb 60 (emotion_confidence self) = true ->
  PrimFloat.ltb 60 (emotion_confidence self') = true.
Proof.
  unfold vote. intros Hv Hself.
  destruct (3 <=? _); [|now injection Hv as <-].
  destruct (best_of _) as [best|]; [|discriminate].
  destruct (negb _ && _ && _ && _) eqn:Htest; injection Hv as <-;
    [|exact Hself].
  cbn. apply andb_true_iff in Htest. tauto.
Qed.

Lemma detect_emotion_confident self env :
  uniform_in_range env ->
  PrimFloat.ltb 60 (emotion_confidence self) = true ->
  PrimFloat.ltb 60
    (emotion_confidence (snd (detect_emotion np_mean self env))) = true.
Proof.
  intros Hu Hself.
  pose proof (detect_emotion_by_path self env) as Hp.
  destruct (path_of self env).
  - destruct Hp as [_ ->]. exact Hself.
  - destruct Hp as [_ ->]. now apply fallback_confident.
  - destruct Hp as (_ & emotions & others & label & score & self' & _ & _ & _
                    & Hv & ->).
    apply vote_confident in Hv; assumption.
Qed.

(** C10: along every sequence of calls from the initial state in which
    each fallback draw lies in the range of [random.uniform(70, 85)],
    [emotion_confidence] stays strictly above 60, and so does the
    confidence every call returns. *)
Theorem confidence_stays_above_threshold now ml envs :
  Forall uniform_in_range envs ->
  PrimFloat.ltb 60 (emotion_confidence (run np_mean (init now ml) envs))
  = true /\
  forall env,
    uniform_in_range env ->
    PrimFloat.ltb 60
      (snd (fst (detect_emotion np_mean (run np_mean (init now ml) envs) env)))
    = true.
Proof.
  intros Hall.
  assert (Hinv : PrimFloat.ltb 60
                   (emotion_confidence (run np_mean (init now ml) envs)) = true).
  { induction envs as [|env envs IH] using rev_ind; [reflexivity|].
    apply Forall_app in Hall. destruct Hall as [Hall Henv].
    rewrite run_snoc. apply detect_emotion_confident; [|now apply IH].
    now inversion Henv. }
  split; [exact Hinv|].
  intros env Henv.
  destruct (detect_emotion_frame (run np_mean (init now ml) envs) env)
    as (_ & _ & -> & _).
  cbn [snd]. now apply detect_emotion_confident.
Qed.

End Calls.

(** *** The theorems at concrete calls *)

(** The fifteenth call sees "happy" a third time, 3 s after construction,
    in a buffer that also holds "sad" twice at confidence 20: all four
    conditions hold and the vote commits "happy" at 80, the mean of the
    three "happy" entries; the mean of all five entries is 56 and would
    not pass the test. *)
Lemma vote_commits_witness :
  (frame_count Samples.two_happy_two_sad + 1) mod 3 = 0 /\
  ml_available Samples.two_happy_two_sad = true /\
  dominant (Samples.fer_scores "happy" 0.7) = Some ("happy"%string, 0.7%float) /\
  PrimFloat.ltb 60
    (mean (map snd (push (emotion_buffer Samples.two_happy_two_sad)
                         ("happy"%string, PrimFloat.mul 0.7 100))))
  = false /\
  fst (detect_emotion mean Samples.two_happy_two_sad
                      (Samples.seen "happy" 0.7 3000000))
  = ("happy"%string, 80%float).
Proof.
  assert (Hz : (frame_count Samples.two_happy_two_sad + 1) mod 3 = 0)
    by (vm_compute; reflexivity).
  assert (Hml : ml_available Samples.two_happy_two_sad = true)
    by (vm_compute; reflexivity).
  assert (Hdom : dominant (Samples.fer_scores "happy" 0.7)
                 = Some ("happy"%string, 0.7%float))
    by (vm_compute; reflexivity).
  split; [exact Hz|]. split; [exact Hml|]. split; [exact Hdom|].
  split; [vm_compute; reflexivity|].
  destruct (vote_commits_iff_all_four mean Samples.two_happy_two_sad
              (Samples.seen "happy" 0.7 3000000)
              (Samples.fer_scores "happy" 0.7) [] "happy" 0.7%float
              Hz Hml eq_refl Hdom)
    as (mode & Hbest & _ & _ & _ & Hcommit & _).
  vm_compute in Hbest. injection Hbest as <-.
  apply Hcommit. split; [|split; [|split]].
  - vm_compute. discriminate.
  - vm_compute. discriminate.
  - vm_compute. reflexivity.
  - vm_compute. reflexivity.
Defined.

(** C2 as stated fails on the fallback path: two calls after construction
    nothing is buffered, and a third call without a face, made more than
    10 s after the last change, replaces "neutral" by the label drawn. *)
Lemma short_buffer_fallback_changes_emotion :
  (List.length (emotion_buffer Samples.fresh) < 3)%nat /\
  current_emotion Samples.fresh = "neutral"%string /\
  current_emotion
    (snd (detect_emotion mean Samples.fresh (Samples.no_face 10000003)))
  = "happy"%string /\
  current_emotion
    (snd (detect_emotion mean Samples.fresh (Samples.no_face 10000003)))
  <> current_emotion Samples.fresh.
Proof.
  split; [vm_compute; lia|].
  split; [vm_compute; reflexivity|].
  split; [vm_compute; reflexivity|].
  vm_compute. discriminate.
Qed.

(** C2 as stated also fails on the voting path: with two entries buffered,
    the entry of the call itself is the third vote. *)
Lemma short_buffer_third_vote_changes_emotion :
  (List.length (emotion_buffer Samples.two_happy) < 3)%nat /\
  current_emotion
    (snd (detect_emotion mean Samples.two_happy
            (Samples.seen "happy" 0.7 3000000)))
  <> current_emotion Samples.two_happy.
Proof.
  split; vm_compute; [lia | discriminate].
Qed.

(** With nothing buffered, a first classifier result leaves "neutral" in
    place. *)
Lemma short_buffer_witness :
  (List.length (emotion_buffer Samples.fresh) < 3)%nat /\
  path_of Samples.fresh (Samples.seen "happy" 0.9 3000000) = Voted /\
  current_emotion
    (snd (detect_emotion mean Samples.fresh (Samples.seen "happy" 0.9 3000000)))
  = current_emotion Samples.fresh.
Proof.
  assert (Hlen : (List.length (emotion_buffer Samples.fresh) < 3)%nat)
    by (vm_compute; lia).
  assert (Hpath : path_of Samples.fresh (Samples.seen "happy" 0.9 3000000)
                  = Voted) by (vm_compute; reflexivity).
  split; [exact Hlen|]. split; [exact Hpath|].
  apply (short_buffer_keeps_emotion mean Samples.fresh
           (Samples.seen "happy" 0.9 3000000) Hlen).
  - rewrite Hpath. discriminate.
  - intros _. vm_compute. lia.
Defined.

(** A third "happy" seen 1.5 s after construction changes nothing. *)
Lemma dwell_witness :
  clock (Samples.seen "happy" 0.7 1500000)
  - last_emotion_change Samples.two_happy < 2000000 /\
  current_emotion
    (snd (detect_emotion mean Samples.two_happy
            (Samples.seen "happy" 0.7 1500000)))
  = "neutral"%string.
Proof.
  assert (H : clock (Samples.seen "happy" 0.7 1500000)
              - last_emotion_change Samples.two_happy < 2000000)
    by (vm_compute; reflexivity).
  split; [exact H|].
  destruct (dwell_blocks_change mean Samples.two_happy
              (Samples.seen "happy" 0.7 1500000) H) as (-> & _).
  vm_compute. reflexivity.
Defined.

(** A sixth observation on the full buffer evicts the first one. *)
Lemma fifo_witness :
  emotion_buffer (run mean (init 0 true) Samples.filling_calls)
  = [("happy"%string, 90%float); ("sad"%string, 80%float);
     ("happy"%string, 70%float); ("sad"%string, 60%float);
     ("fear"%string, 50%float)] /\
  emotion_buffer
    (snd (detect_emotion mean (run mean (init 0 true) Samples.filling_calls)
            (Samples.seen "neutral" 0.95 3000000)))
  = [("sad"%string, 80%float); ("happy"%string, 70%float);
     ("sad"%string, 60%float); ("fear"%string, 50%float)]
    ++ [("neutral"%string, PrimFloat.mul 0.95 100)].
Proof.
  assert (Hfull : emotion_buffer (run mean (init 0 true) Samples.filling_calls)
                  = [("happy"%string, 90%float); ("sad"%string, 80%float);
                     ("happy"%string, 70%float); ("sad"%string, 60%float);
                     ("fear"%string, 50%float)])
    by (vm_compute; reflexivity).
  assert (Hz : (frame_count (run mean (init 0 true) Samples.filling_calls) + 1)
               mod 3 = 0) by (vm_compute; reflexivity).
  assert (Hml : ml_available (run mean (init 0 true) Samples.filling_calls)
                = true) by (vm_compute; reflexivity).
  assert (Hdom : dominant (Samples.fer_scores "neutral" 0.95)
                 = Some ("neutral"%string, 0.95%float))
    by (vm_compute; reflexivity).
  assert (Hlen : List.length
                   (emotion_buffer (run mean (init 0 true) Samples.filling_calls))
                 = 5%nat) by (vm_compute; reflexivity).
  split; [exact Hfull|].
  exact (proj2 (proj2 (buffer_bounded_fifo mean 0 true Samples.filling_calls)
                  (Samples.seen "neutral" 0.95 3000000)
                  (Samples.fer_scores "neutral" 0.95) [] "neutral"%string
                  0.95%float Hz Hml eq_refl Hdom)
               _ _ Hfull Hlen).
Defined.

(** Nine calls without a face, each fallback draw being 75. *)
Lemma confidence_witness :
  Forall uniform_in_range Samples.faceless_calls /\
  PrimFloat.ltb 60
    (emotion_confidence (run mean (init 0 true) Samples.faceless_calls))
  = true.
Proof.
  assert (H : Forall uniform_in_range Samples.faceless_calls).
  { repeat constructor. }
  split; [exact H|].
  apply (confidence_stays_above_threshold mean 0 true Samples.faceless_calls H).
Defined.

End StabilizerFacts.

(* ================================================================== *)
(** ** Reasoning about code that may raise *)

Module EffectFacts.
Import Py.

Section Triples.
Context {S : Type}.

Lemma always_returns_only {A} (P : A -> Prop) (c : M S A) :
  always P c -> returns_only P c.
Proof.
  intros H s a s' E. destruct (H s) as (a0 & s0 & E0 & HP).
  rewrite E in E0. now injection E0 as -> _.
Qed.

Lemma always_ret {A} (P : A -> Prop) a : P a -> always P (ret a : M S A).
Proof. intros HP s. exists a, s. now split. Qed.

Lemma always_bind {A B} (Q : A -> Prop) (P : B -> Prop) (c : M S A) k :
  always Q c -> (forall a, Q a -> always P (k a)) -> always P (bind c k).
Proof.
  intros Hc Hk s. destruct (Hc s) as (a & s1 & E & HQ).
  unfold bind. rewrite E. now apply Hk.
Qed.

Lemma always_try_except {A} (P : A -> Prop) (body : M S A) handler :
  returns_only P body -> (forall e, always P (handler e)) ->
  always P (try_except body handler).
Proof.
  intros Hb Hh s. unfold try_except.
  destruct (body s) as [[a|e] s1] eqn:E.
  - exists a, s1. split; [reflexivity | now apply (Hb s a s1)].
  - apply Hh.
Qed.

Lemma returns_only_ret {A} (P : A -> Prop) a :
  P a -> returns_only P (ret a : M S A).
Proof. intros HP s a' s' [= <- _]. exact HP. Qed.

Lemma returns_only_bind {A B} (Q : A -> Prop) (P : B -> Prop) (c : M S A) k :
  returns_only Q c -> (forall a, Q a -> returns_only P (k a)) ->
  returns_only P (bind c k).
Proof.
  intros Hc Hk s b s' E. unfold bind in E.
  destruct (c s) as [[a|e] s1] eqn:Ec; [|discriminate].
  exact (Hk a (Hc s a s1 Ec) s1 b s' E).
Qed.

Lemma returns_only_seq {A B} (P : B -> Prop) (c : M S A) k :
  (forall a, returns_only P (k a)) -> returns_only P (bind c k).
Proof.
  intros Hk. apply (returns_only_bind (fun _ => True)); [easy | auto].
Qed.

End Triples.

End EffectFacts.

(* ================================================================== *)
(** ** The sampler *)

Module SamplerFacts.
Import Py EffectFacts Sampler.
Local Open Scope py_scope.

Section WithGlobals.
Variable np_mean : list float -> float.
Variable g : globals.

(** [initialize_camera] answers [True] or [False]; it has no way to
    raise: the calls that open the camera sit in its [try]. *)
Lemma initialize_camera_always env :
  always (fun _ => True) (initialize_camera g env).
Proof.
  unfold initialize_camera.
  destruct (CV_AVAILABLE g); cbn [negb]; [|now apply always_ret].
  intros w. unfold bind at 1. cbn [get_detector].
  destruct (camera (detector w)) as [c|].
  - now apply always_ret.
  - apply always_try_except; [easy | intros e; now apply always_ret].
Qed.

Lemma detect_face_and_emotion_always env frame :
  always (face_result frame) (detect_face_and_emotion np_mean g env frame).
Proof.
  unfold detect_face_and_emotion.
  destruct (CV_AVAILABLE g); cbn [negb];
    [|apply always_ret; now left].
  apply always_try_except; [|intros e; apply always_ret; now left].
  repeat (apply returns_only_seq; intros ?).
  destruct (_ =? _)%nat; [apply returns_only_ret; now left|].
  repeat (apply returns_only_seq; intros ?).
  apply returns_only_ret. right. eauto.
Qed.

Lemma _get_demo_frame_always env :
  always well_formed (_get_demo_frame env).
Proof.
  unfold _get_demo_frame.
  apply always_try_except.
  - apply returns_only_seq. intros frame_bytes. apply returns_only_ret.
    unfold well_formed. destruct (PrimFloat.ltb _ _); split; split;
      congruence.
  - intros e. apply always_ret. unfold not_present, well_formed. tauto.
Qed.

Lemma face_result_well_formed frame r frame_bytes :
  face_result frame r ->
  well_formed (frame_bytes, fst (fst (fst r)), snd (fst (fst r)), snd (fst r)).
Proof.
  intros [-> | (emotion & confidence & ->)]; cbn; split; split; congruence.
Qed.

Lemma get_frame_always env :
  always well_formed (get_frame np_mean g env).
Proof.
  assert (Hnp : well_formed not_present)
    by (unfold not_present, well_formed; tauto).
  unfold get_frame.
  destruct (CV_AVAILABLE g); cbn [negb]; [|apply _get_demo_frame_always].
  apply (always_bind (fun _ => True)); [apply initialize_camera_always|].
  intros ok _. destruct ok; cbn [negb]; [|now apply always_ret].
  apply always_try_except; [|intros e; now apply always_ret].
  apply returns_only_seq. intros r.
  destruct (fst r); cbn [negb]; [|now apply returns_only_ret].
  apply (returns_only_bind (face_result (snd r))).
  { apply always_returns_only, detect_face_and_emotion_always. }
  intros found Hfound.
  destruct found as [[[is_present emotion] confidence] [processed|]];
    [|now apply returns_only_ret].
  apply returns_only_seq. intros frame_bytes. apply returns_only_ret.
  exact (face_result_well_formed _ _ (Some frame_bytes) Hfound).
Qed.

End WithGlobals.

(** *** Failure paths at concrete inputs *)

(** [self.camera.read()] raises: the sample is "not present". *)
Example read_raises_not_present :
  fst (get_frame Stabilizer.mean Samples.cv_globals
         (Samples.one_face (Raises (Exception "read")))
         (Api.sampling (Samples.started Samples.cv_globals)))
  = Returns not_present.
Proof. vm_compute. reflexivity. Qed.

(** No camera can be opened: the sample is "not present". *)
Example no_camera_not_present :
  fst (get_frame Stabilizer.mean Samples.cv_globals
         {| capture := fun _ => Raises (Exception "VideoCapture");
            camera_set := Returns tt;
            camera_read := Returns (true, Some [0]);
            find_faces := Returns [(10, 20, 64, 64)];
            draw := Returns tt;
            imencode := Returns [255];
            analyzer_env := Samples.seen "happy" 0.9 3000000;
            basic := Samples.quiet_basic;
            demo := Samples.demo_draws |}
         (Api.sampling (Samples.started Samples.cv_globals)))
  = Returns not_present.
Proof. vm_compute. reflexivity. Qed.

(** Demo mode reports presence with an emotion and a confidence rounded to
    one decimal. *)
Example demo_present :
  fst (get_frame Stabilizer.mean Samples.demo_globals
         (Samples.one_face (Returns (true, Some [0])))
         (Api.sampling (Samples.started Samples.demo_globals)))
  = Returns (Some [255; 216; 255], true, Some "happy"%string, Some 82.4%float).
Proof. vm_compute. reflexivity. Qed.

End SamplerFacts.

(* ================================================================== *)
(** ** The endpoints *)

Module ApiFacts.
Import Py EffectFacts Sampler Api.
Local Open Scope py_scope.

(** The aggregation never divides by zero: it returns a summary for every
    list of rows. *)
Lemma aggregate_returns detections :
  exists summary, aggregate detections = Returns summary.
Proof.
  unfold aggregate, summarize.
  destruct detections as [|d detections]; [eauto|].
  set (l := d :: detections).
  assert (Hpos : 0 < Z.of_nat (List.length l)) by (subst l; cbn [List.length]; lia).
  destruct (Z.ltb_spec 0 (Z.of_nat (List.length l))); [|lia].
  unfold int_truediv.
  destruct (Z.eqb_spec (Z.of_nat (List.length l)) 0); [lia|].
  destruct (Z.of_nat (List.length (filter _ l))); eauto.
Qed.

(** C6: the summary of no rows is exactly
    [{total_detections: 0, presence_percentage: 0.0,
      emotion_distribution: {}, working_hours: 0.0}], and it is reached
    without dividing: the result is the same whatever the division does,
    and the endpoint returns it when its start date can be computed
    (line 529) and the query finds no row. *)
Theorem empty_summary_without_division :
  (forall truediv, summarize truediv [] = Returns empty_summary) /\
  aggregate [] = Returns empty_summary /\
  (forall employee days now s start_date,
      since now days = Returns start_date ->
      query_since (rows (db s)) employee start_date = [] ->
      fst (get_analytics employee days now s) = Returns empty_summary).
Proof.
  split; [reflexivity|]. split; [reflexivity|].
  intros employee days now s start_date Hs Hq.
  unfold get_analytics, try_finally, bind, db_open, get_db, set_db, call.
  rewrite Hs. cbn -[query_since summarize]. rewrite Hq. reflexivity.
Qed.

(** The endpoint on a table without rows, asked for one day. *)
Lemma empty_summary_witness :
  since 1700000000000000 1 = Returns 1699913600000000 /\
  fst (get_analytics "EMP001" 1 1700000000000000
                     (Samples.started Samples.demo_globals))
  = Returns empty_summary.
Proof.
  assert (Hs : since 1700000000000000 1 = Returns 1699913600000000)
    by reflexivity.
  split; [exact Hs|].
  exact (proj2 (proj2 empty_summary_without_division)
               "EMP001"%string 1 1700000000000000
               (Samples.started Samples.demo_globals) 1699913600000000
               Hs eq_refl).
Defined.

(** Asked for more days than [timedelta] takes, the endpoint raises. *)
Lemma empty_table_too_many_days :
  fst (get_analytics "EMP001" 1000000000 1700000000000000
                     (Samples.started Samples.demo_globals))
  = Raises (Exception "OverflowError").
Proof. vm_compute. reflexivity. Qed.

Lemma truthy_present emo d :
  present_with emo d -> truthy_int (is_present d) = true.
Proof.
  intros [H _]. unfold truthy_int.
  now destruct (Z.eqb_spec (is_present d) 0).
Qed.

(** C7, as amended: for [present/happy, present/happy, present/sad,
    absent] the summary has presence_percentage 75.0, emotion_distribution
    [{happy: 2, sad: 1}] and working_hours [round(3 * 0.5 / 60, 2)], which
    is 0.03: both figures are rounded to two decimals. *)
Theorem four_events_summary d1 d2 d3 d4 :
  present_with "happy" d1 -> present_with "happy" d2 ->
  present_with "sad" d3 -> absent_row d4 ->
  aggregate [d1; d2; d3; d4]
  = Returns {| total_detections := 4;
               presence_percentage := 75%float;
               emotion_distribution := [("happy"%string, 2); ("sad"%string, 1)];
               working_hours := 0.03%float |}
  /\ round (PrimFloat.div (PrimFloat.mul 3 0.5) 60) 2 = 0.03%float.
Proof.
  intros H1 H2 H3 H4. split; [|vm_compute; reflexivity].
  pose proof (truthy_present _ _ H1) as T1.
  pose proof (truthy_present _ _ H2) as T2.
  pose proof (truthy_present _ _ H3) as T3.
  destruct H1 as [_ E1], H2 as [_ E2], H3 as [_ E3].
  unfold absent_row in H4.
  unfold aggregate, summarize, count_emotions.
  cbn [filter fold_left List.length].
  rewrite T1, T2, T3, E1, E2, E3, H4.
  replace (truthy_int 0) with false by reflexivity.
  destruct (emotion d4); rewrite ?andb_false_r; vm_compute; reflexivity.
Qed.

(** The claim of C7 read literally fails: the code rounds 0.025 to two
    decimals. *)
Lemma four_events_working_hours_is_not_0_025 :
  exists summary,
    aggregate Samples.four_events = Returns summary /\
    working_hours summary <> 0.025%float.
Proof.
  eexists. split; [vm_compute; reflexivity|].
  cbn [working_hours]. intros H.
  apply (f_equal (PrimFloat.eqb 0.025)) in H. vm_compute in H. discriminate.
Qed.

(** The export routes keep the unrounded figure for the same rows. *)
Example four_events_exported_unrounded :
  export_analytics Samples.four_events
  = Returns {| total_detections := 4;
               presence_percentage := 75%float;
               emotion_distribution := [("happy"%string, 2); ("sad"%string, 1)];
               working_hours := 0.025%float |}.
Proof. vm_compute. reflexivity. Qed.

Section WithGlobals.
Variable np_mean : list float -> float.
Variable g : globals.

(** C9: when [db.add] or [db.commit] raises, [create_detection] raises
    [HTTPException] with status 500 carrying the database error instead of
    returning a response; the session is rolled back and closed without a
    refresh, the table holds the rows it held before the request, and
    nothing is left in the transaction. *)
Theorem failed_write_is_surfaced_and_rolled_back employee frame env s e :
  add_result env = Raises e \/
  (add_result env = Returns tt /\ commit_result env = Raises e) ->
  exists s' attempted,
    create_detection np_mean g employee frame env s
    = (Raises (HTTPException 500 ("Database error: " ++ str e)), s') /\
    rows (db s') = rows (db s) /\
    uncommitted (db s') = [] /\
    (attempted = [Add] \/ attempted = [Add; Commit]) /\
    history (db s')
    = history (db s) ++ [SessionLocal] ++ attempted ++ [Rollback; Close].
Proof.
  intros Hfail. unfold create_detection.
  destruct (SamplerFacts.get_frame_always np_mean g frame (sampling s))
    as ([[[frame_bytes is_present] emotion] confidence] & w' & E & _).
  unfold bind at 1. unfold sampler_call. rewrite E.
  destruct Hfail as [Ha | [Ha Hc]].
  - exists
      {| sampling := w';
         db := {| rows := rows (db s);
                  uncommitted := [];
                  history := history (db s)
                             ++ [SessionLocal; Add; Rollback; Close] |} |},
      [Add].
    unfold try_finally, try_except, db_open, db_add, db_commit, db_rollback,
      db_close, session, unchanged, bind, call, raise, get_db, set_db.
    rewrite Ha. cbn. rewrite <- !app_assoc. cbn. auto 6.
  - exists
      {| sampling := w';
         db := {| rows := rows (db s);
                  uncommitted := [];
                  history := history (db s)
                             ++ [SessionLocal; Add; Commit; Rollback; Close] |} |},
      [Add; Commit].
    unfold try_finally, try_except, db_open, db_add, db_commit, db_rollback,
      db_close, session, unchanged, bind, call, raise, get_db, set_db.
    rewrite Ha, Hc. cbn. rewrite <- !app_assoc. cbn. auto 6.
Qed.
End WithGlobals.

(** *** The theorems at concrete requests *)

Lemma four_events_witness :
  present_with "happy" (Samples.present "happy" 91.5) /\
  absent_row Samples.absent /\
  aggregate Samples.four_events
  = Returns {| total_detections := 4;
               presence_percentage := 75%float;
               emotion_distribution := [("happy"%string, 2); ("sad"%string, 1)];
               working_hours := 0.03%float |}.
Proof.
  assert (Hp : forall emo conf, present_with emo (Samples.present emo conf))
    by (intros emo conf; split; [discriminate | reflexivity]).
  split; [apply Hp|]. split; [reflexivity|].
  apply (four_events_summary
           (Samples.present "happy" 91.5) (Samples.present "happy" 88)
           (Samples.present "sad" 72.25) Samples.absent);
    try apply Hp; reflexivity.
Defined.

(** A request during which the commit fails on a locked database. *)
Lemma locked_database_witness :
  commit_result Samples.locked = Raises (Exception "database is locked") /\
  fst (create_detection Stabilizer.mean Samples.cv_globals "EMP001"
         (Samples.one_face (Returns (true, Some [0]))) Samples.locked
         (Samples.started Samples.cv_globals))
  = Raises (HTTPException 500 "Database error: database is locked").
Proof.
  split; [reflexivity|].
  destruct (failed_write_is_surfaced_and_rolled_back Stabilizer.mean
              Samples.cv_globals "EMP001"
              (Samples.one_face (Returns (true, Some [0]))) Samples.locked
              (Samples.started Samples.cv_globals)
              (Exception "database is locked")
              (or_intror (conj eq_refl eq_refl)))
    as (s' & attempted & -> & _).
  reflexivity.
Defined.

(** The same request on a healthy database stores one row. *)
Example healthy_database_stores_row :
  rows (db (snd (create_detection Stabilizer.mean Samples.cv_globals "EMP001"
                   (Samples.one_face (Returns (true, Some [0]))) Samples.healthy
                   (Samples.started Samples.cv_globals))))
  = [{| id := Some 1; employee_id := "EMP001"; timestamp := Some 1000000;
        is_present := 1; emotion := Some "neutral"%string;
        confidence := Some 85%float |}].
Proof. vm_compute. reflexivity. Qed.

End ApiFacts.

(* ================================================================== *)
(** ** Facts about the rest of the code *)

Module HistoryFacts.
Import Py PyFacts Stabilizer StabilizerFacts History.

Lemma lastn_short {A} k (l : list A) :
  (List.length l <= k)%nat -> lastn k l = l.
Proof.
  intros H. unfold lastn.
  replace (List.length l - k)%nat with 0%nat by lia. reflexivity.
Qed.

Lemma lastn_length {A} k (l : list A) :
  (k <= List.length l)%nat -> List.length (lastn k l) = k.
Proof. intros H. unfold lastn. rewrite length_skipn. lia. Qed.

Lemma skipn_succ_tl {A} k (l : list A) : skipn (S k) l = tl (skipn k l).
Proof.
  revert l. induction k as [|k IH]; intros [|a l]; simpl; auto.
  rewrite <- IH. reflexivity.
Qed.

(** Lines 55-57 keep the five most recent entries. *)
Lemma push_lastn l o : push (lastn 5 l) o = lastn 5 (l ++ [o]).
Proof.
  destruct (Nat.lt_ge_cases (List.length l) 5) as [Hlt|Hge].
  - rewrite (lastn_short 5 l) by lia.
    rewrite push_not_full by assumption.
    rewrite lastn_short; [reflexivity|]. rewrite length_app. simpl. lia.
  - pose proof (lastn_length 5 l Hge) as Hlen.
    destruct (lastn 5 l) as [|oldest rest] eqn:E; [discriminate|].
    rewrite push_full by assumption.
    unfold lastn in *. rewrite length_app. cbn [List.length].
    replace (List.length l + 1 - 5)%nat with (S (List.length l - 5)) by lia.
    rewrite skipn_app.
    replace (S (List.length l - 5) - List.length l)%nat with 0%nat by lia.
    rewrite skipn_succ_tl, E. reflexivity.
Qed.

Section Runs.
Variable np_mean : list float -> float.

(** What a call does to the buffer. *)
Lemma detect_emotion_buffer self env :
  emotion_buffer (snd (detect_emotion np_mean self env))
  = fold_left push (observed (ml_available self) (frame_count self + 1) env)
              (emotion_buffer self).
Proof.
  pose proof (detect_emotion_by_path np_mean self env) as Hp.
  unfold path_of in Hp. unfold observed.
  destruct (Z.eqb_spec ((frame_count self + 1) mod 3) 0) as [Hz|Hnz];
    cbn [negb andb] in *.
  2:{ destruct Hp as [_ ->]. reflexivity. }
  destruct (ml_available self) eqn:Hml; cbn [negb] in *.
  2:{ destruct Hp as [_ ->].
      now destruct (fallback_frame (count_frame self) env) as (_ & _ & -> & _). }
  destruct (fer_output env) as [|[|emotions others]].
  1,2: destruct Hp as [_ ->];
       now destruct (fallback_frame (count_frame self) env) as (_ & _ & -> & _).
  destruct (dominant emotions) as [[label score]|] eqn:Hd.
  2:{ destruct Hp as [_ ->].
      now destruct (fallback_frame (count_frame self) env) as (_ & _ & -> & _). }
  destruct Hp as (_ & emotions' & others' & label' & score' & self' & _ & Hfer
                  & Hdom & Hv & ->).
  injection Hfer as <- <-. rewrite Hd in Hdom. injection Hdom as <- <-.
  apply vote_frame in Hv. destruct Hv as (_ & _ & Hb).
  cbn [snd fold_left]. rewrite Hb. reflexivity.
Qed.

Lemma run_cons self env envs :
  run np_mean self (env :: envs)
  = run np_mean (snd (detect_emotion np_mean self env)) envs.
Proof. reflexivity. Qed.

Lemma run_buffer_history self envs history :
  emotion_buffer self = lastn 5 history ->
  emotion_buffer (run np_mean self envs)
  = lastn 5 (history
             ++ observations (ml_available self) (frame_count self) envs).
Proof.
  revert self history. induction envs as [|env envs IH]; intros self history H.
  - cbn. now rewrite app_nil_r.
  - rewrite run_cons. cbn [observations]. rewrite app_assoc.
    destruct (detect_emotion_frame np_mean self env) as (Hf & Hm & _).
    replace (observations (ml_available self) (frame_count self + 1) envs)
      with (observations
              (ml_available (snd (detect_emotion np_mean self env)))
              (frame_count (snd (detect_emotion np_mean self env))) envs)
      by (now rewrite Hf, Hm).
    apply IH.
    rewrite detect_emotion_buffer.
    destruct (observed (ml_available self) (frame_count self + 1) env)
      as [|o [|o' more]] eqn:E.
    + cbn [fold_left]. now rewrite app_nil_r.
    + cbn [fold_left]. rewrite H. apply push_lastn.
    + exfalso. unfold observed in E.
      destruct (_ && _); [|discriminate].
      destruct (fer_output env) as [|[|emotions others]]; try discriminate.
      destruct (dominant emotions) as [[? ?]|]; discriminate.
Qed.

(** X1: after any sequence of calls from the initial state the buffer
    holds, oldest first, the five most recent classifier results that the
    calls buffered (all of them while there are at most five). *)
Theorem buffer_is_last_five_observations now ml envs :
  emotion_buffer (run np_mean (init now ml) envs)
  = lastn 5 (observations ml 0 envs).
Proof.
  apply (run_buffer_history (init now ml) envs []). reflexivity.
Qed.

(** *** Majorities *)

Lemma occurrences_two emo emo' (buffer : list observation) :
  emo <> emo' ->
  occurrences emo buffer + occurrences emo' buffer
  <= Z.of_nat (List.length buffer).
Proof.
  intros Hne. induction buffer as [|o buffer IH]; [cbn; lia|].
  rewrite !occurrences_cons. cbn [List.length].
  destruct (String.eqb_spec (fst o) emo) as [E1|E1];
    destruct (String.eqb_spec (fst o) emo') as [E2|E2]; try lia.
  congruence.
Qed.

Lemma occurrences_In emo (buffer : list observation) :
  0 < occurrences emo buffer -> In emo (map fst buffer).
Proof.
  induction buffer as [|o buffer IH]; [unfold occurrences; cbn; lia|].
  rewrite occurrences_cons. cbn [map In].
  destruct (String.eqb_spec (fst o) emo) as [E|E]; [now left|].
  intros H. right. apply IH. lia.
Qed.

(** A label with three of at most five entries is the one line 65 picks. *)
Lemma majority_is_mode buffer winner best :
  (List.length buffer <= 5)%nat ->
  3 <= occurrences winner buffer ->
  best_of (count_emotions buffer) = Some best ->
  best = winner.
Proof.
  intros Hlen Hwin Hbest.
  destruct (best_of_mode _ _ Hbest) as [_ Hmax].
  destruct (string_dec best winner) as [E|Hne]; [exact E|exfalso].
  pose proof (occurrences_two best winner buffer Hne).
  specialize (Hmax winner). lia.
Qed.

(** X2: on a call that buffers a classifier result, a label that then holds
    at least 3 of the (at most 5) buffered entries, differs from the current
    emotion and has mean confidence above 60 becomes the current emotion as
    soon as more than 2.0 s have passed since the last change.  Its mean
    confidence is the mean over the confidences, in buffer order, of the
    buffered entries that carry the label, and of no other entry. *)
Theorem majority_label_is_committed self env emotions others label score
        winner :
  (frame_count self + 1) mod 3 = 0 ->
  ml_available self = true ->
  fer_output env = FerResults (emotions :: others) ->
  dominant emotions = Some (label, score) ->
  (List.length (emotion_buffer self) <= 5)%nat ->
  3 <= occurrences winner
         (push (emotion_buffer self) (label, PrimFloat.mul score 100)) ->
  winner <> current_emotion self ->
  2000000 < clock env - last_emotion_change self ->
  PrimFloat.ltb 60
    (np_mean
       (map snd
          (filter (fun o => String.eqb (fst o) winner)
             (push (emotion_buffer self) (label, PrimFloat.mul score 100)))))
  = true ->
  let out := detect_emotion np_mean self env in
  fst out
  = (winner,
     np_mean
       (map snd
          (filter (fun o => String.eqb (fst o) winner)
             (push (emotion_buffer self) (label, PrimFloat.mul score 100)))))
  /\ current_emotion (snd out) = winner
  /\ emotion_confidence (snd out) = snd (fst out)
  /\ last_emotion_change (snd out) = clock env.
Proof.
  intros Hz Hml Hfer Hdom Hlen Hwin Hne Hel Hconf out.
  destruct (voted_call np_mean self env emotions others label score
              Hz Hml Hfer Hdom) as (self' & Hvote & Hout).
  fold out in Hout.
  set (self1 := buffered (count_frame self) (label, PrimFloat.mul score 100))
    in *.
  destruct (vote_cases np_mean self1 env) as (best & Hbest & Hcases);
    [apply push_nonempty|].
  assert (Hb : best = winner).
  { apply (majority_is_mode (emotion_buffer self1)); try assumption.
    apply push_length. exact Hlen. }
  subst best.
  destruct Hcases as [[_ Hv]|[Hnot _]].
  - rewrite Hv in Hvote. injection Hvote as <-. rewrite Hout. cbn. auto.
  - exfalso. apply Hnot. repeat split; assumption.
Qed.

(** X3: on a call that buffers a classifier result, when no label holds 3
    of the buffered entries the call changes neither the current emotion,
    nor its confidence, nor the time of the last change, and returns the
    current pair. *)
Theorem no_majority_no_change self env emotions others label score :
  (frame_count self + 1) mod 3 = 0 ->
  ml_available self = true ->
  fer_output env = FerResults (emotions :: others) ->
  dominant emotions = Some (label, score) ->
  (forall emo,
      occurrences emo
        (push (emotion_buffer self) (label, PrimFloat.mul score 100)) < 3) ->
  let out := detect_emotion np_mean self env in
  fst out = (current_emotion self, emotion_confidence self)
  /\ current_emotion (snd out) = current_emotion self
  /\ emotion_confidence (snd out) = emotion_confidence self
  /\ last_emotion_change (snd out) = last_emotion_change self.
Proof.
  intros Hz Hml Hfer Hdom Hnone out.
  destruct (voted_call np_mean self env emotions others label score
              Hz Hml Hfer Hdom) as (self' & Hvote & Hout).
  fold out in Hout.
  set (self1 := buffered (count_frame self) (label, PrimFloat.mul score 100))
    in *.
  destruct (vote_cases np_mean self1 env) as (best & _ & [[Hall _]|[_ Hv]]);
    [apply push_nonempty| |].
  - exfalso. destruct Hall as (_ & Hocc & _). specialize (Hnone best).
    change (emotion_buffer self1)
      with (push (emotion_buffer self) (label, PrimFloat.mul score 100)) in Hocc.
    lia.
  - rewrite Hv in Hvote. injection Hvote as <-. rewrite Hout. cbn. auto.
Qed.

(** X4: every call either leaves current emotion, confidence and time of
    last change as they were, or records the call's clock reading as the
    time of last change, and then that reading is more than 2.0 s after the
    previous one: two changes are never closer than that. *)
Theorem changes_are_two_seconds_apart self env :
  let out := detect_emotion np_mean self env in
  (current_emotion (snd out) = current_emotion self /\
   emotion_confidence (snd out) = emotion_confidence self /\
   last_emotion_change (snd out) = last_emotion_change self)
  \/
  (last_emotion_change (snd out) = clock env /\
   last_emotion_change self + 2000000 < clock env).
Proof.
  cbn zeta.
  pose proof (detect_emotion_by_path np_mean self env) as Hp.
  destruct (path_of self env).
  - destruct Hp as [_ ->]. left. cbn. auto.
  - destruct Hp as [_ ->]. unfold _fallback_emotion, total_seconds_gt.
    cbn [count_frame last_emotion_change].
    destruct (Z.ltb_spec (10 * 1000000) (clock env - last_emotion_change self)).
    + right. cbn. split; [reflexivity | lia].
    + left. cbn. auto.
  - destruct Hp as (_ & emotions & others & label & score & self' & _ & _ & _
                    & Hv & ->).
    set (self1 := buffered (count_frame self) (label, PrimFloat.mul score 100))
      in *.
    destruct (vote_cases np_mean self1 env) as (best & _ & [[Hall Hv']|[_ Hv']]);
      [apply push_nonempty | |]; rewrite Hv' in Hv; injection Hv as <-.
    + right. destruct Hall as (_ & _ & Hel & _).
      change (last_emotion_change self1) with (last_emotion_change self) in Hel.
      cbn. split; [reflexivity | lia].
    + left. cbn. auto.
Qed.

(** *** The labels a run can reach *)

Lemma max_from_member {A K} (lt : K -> K -> bool) (key : A -> K) best rest :
  In (max_from lt key best rest) (best :: rest).
Proof.
  revert best. induction rest as [|x rest IH]; intros best; cbn [max_from].
  - now left.
  - destruct (IH (if lt (key best) (key x) then x else best)) as [H|H].
    + rewrite <- H. destruct (lt (key best) (key x)); cbn; auto.
    + right. now right.
Qed.

Lemma dominant_reported env emotions others label score :
  fer_output env = FerResults (emotions :: others) ->
  dominant emotions = Some (label, score) ->
  In label (reported env).
Proof.
  intros Hfer Hdom. unfold reported. rewrite Hfer.
  unfold dominant, max in Hdom.
  destruct emotions as [|first rest]; [discriminate|].
  injection Hdom as Hdom.
  pose proof (max_from_member PrimFloat.ltb snd first rest) as Hin.
  rewrite Hdom in Hin. unfold keys.
  change label with (fst (label, score)). now apply in_map.
Qed.

Lemma bisect_le a x hi : (bisect a x hi <= hi)%nat.
Proof.
  revert a. induction hi as [|hi IH]; intros [|y a]; cbn; try lia.
  destruct (PrimFloat.ltb x y); [lia|]. specialize (IH a). lia.
Qed.

(** [random.choices] returns a member of the population. *)
Lemma choices_member population weights u :
  population <> [] -> In (choices population weights u) population.
Proof.
  intros Hne. unfold choices. apply nth_In.
  pose proof (bisect_le (accumulate weights)
                (PrimFloat.mul u
                   (PrimFloat.add (last (accumulate weights) 0%float) 0%float))
                (List.length population - 1)).
  destruct population; [congruence | cbn [List.length] in *; lia].
Qed.

Lemma Forall_tl {A} (P : A -> Prop) l : Forall P l -> Forall P (tl l).
Proof. intros H. destruct l; [exact H | now inversion H]. Qed.

Lemma push_labels labels buffer o :
  Forall (fun o' : observation => In (fst o') labels) buffer ->
  In (fst o) labels ->
  Forall (fun o' : observation => In (fst o') labels) (push buffer o).
Proof.
  intros Hb Ho.
  assert (H : Forall (fun o' : observation => In (fst o') labels) (buffer ++ [o])).
  { apply Forall_app. split; [exact Hb | now constructor]. }
  unfold push. cbv zeta. destruct (5 <? _); [|exact H].
  apply Forall_tl. exact H.
Qed.

Lemma detect_emotion_labelled labels self env :
  incl (reported env) labels ->
  labelled labels self ->
  labelled labels (snd (detect_emotion np_mean self env)).
Proof.
  intros Hrep [Hcur Hbuf].
  pose proof (detect_emotion_by_path np_mean self env) as Hp.
  destruct (path_of self env).
  - destruct Hp as [_ ->]. now split.
  - destruct Hp as [_ ->]. unfold _fallback_emotion.
    destruct (total_seconds_gt _ 10); [|now split].
    split; [|exact Hbuf]. cbn [snd current_emotion]. apply in_or_app. left.
    apply choices_member. discriminate.
  - destruct Hp as (_ & emotions & others & label & score & self' & _ & Hfer
                    & Hdom & Hv & ->).
    set (self1 := buffered (count_frame self) (label, PrimFloat.mul score 100))
      in *.
    assert (Hbuf1 : Forall (fun o : observation => In (fst o) labels)
                           (emotion_buffer self1)).
    { apply push_labels; [exact Hbuf|]. apply Hrep.
      exact (dominant_reported env emotions others label score Hfer Hdom). }
    destruct (vote_cases np_mean self1 env)
      as (best & Hbest & [[_ Hv']|[_ Hv']]);
      [apply push_nonempty | |]; rewrite Hv' in Hv; injection Hv as <-.
    + split; [|exact Hbuf1]. cbn [snd current_emotion].
      apply in_or_app. right.
      destruct (best_of_mode _ _ Hbest) as [Hpos _].
      apply occurrences_In in Hpos. apply in_map_iff in Hpos.
      destruct Hpos as (o & <- & Hin).
      rewrite Forall_forall in Hbuf1. now apply Hbuf1.
    + split; [exact Hcur | exact Hbuf1].
Qed.

(** X5: along every sequence of calls from the initial state, the current
    emotion is one of the four labels of the fallback policy ("neutral"
    among them) or a label the classifier scored in one of the calls. *)
Theorem current_emotion_is_a_known_label labels now ml envs :
  Forall (fun env => incl (reported env) labels) envs ->
  In (current_emotion (run np_mean (init now ml) envs))
     (fallback_emotions ++ labels).
Proof.
  intros Hall.
  assert (H : labelled labels (run np_mean (init now ml) envs)).
  { induction envs as [|env envs IH] using rev_ind.
    - split; [cbn; auto | constructor].
    - apply Forall_app in Hall. destruct Hall as [Hall Henv].
      rewrite run_snoc. apply detect_emotion_labelled; [|now apply IH].
      now inversion Henv. }
  exact (proj1 H).
Qed.

End Runs.

(** The fifteenth call sees "happy" a third time, 3 s after construction,
    while "neutral" is current and the buffer also holds "sad" twice at
    confidence 20: "happy" is committed at 80, the mean of its own three
    entries; the mean of all five entries is 56. *)
Lemma majority_label_witness :
  3 <= occurrences "happy"
         (push (emotion_buffer Samples.two_happy_two_sad)
               ("happy"%string, PrimFloat.mul 0.7 100)) /\
  current_emotion Samples.two_happy_two_sad = "neutral"%string /\
  PrimFloat.ltb 60
    (mean (map snd (push (emotion_buffer Samples.two_happy_two_sad)
                         ("happy"%string, PrimFloat.mul 0.7 100))))
  = false /\
  fst (detect_emotion mean Samples.two_happy_two_sad
                      (Samples.seen "happy" 0.7 3000000))
  = ("happy"%string, 80%float).
Proof.
  assert (Hz : (frame_count Samples.two_happy_two_sad + 1) mod 3 = 0)
    by (vm_compute; reflexivity).
  assert (Hml : ml_available Samples.two_happy_two_sad = true)
    by (vm_compute; reflexivity).
  assert (Hdom : dominant (Samples.fer_scores "happy" 0.7)
                 = Some ("happy"%string, 0.7%float))
    by (vm_compute; reflexivity).
  assert (Hlen : (List.length (emotion_buffer Samples.two_happy_two_sad)
                  <= 5)%nat)
    by (vm_compute; lia).
  assert (Hocc : 3 <= occurrences "happy"
                        (push (emotion_buffer Samples.two_happy_two_sad)
                              ("happy"%string, PrimFloat.mul 0.7 100)))
    by (vm_compute; discriminate).
  assert (Hcur : current_emotion Samples.two_happy_two_sad
                 = "neutral"%string)
    by (vm_compute; reflexivity).
  assert (Hne : "happy"%string <> current_emotion Samples.two_happy_two_sad)
    by (rewrite Hcur; discriminate).
  assert (Hdwell : 2000000 < clock (Samples.seen "happy" 0.7 3000000)
                             - last_emotion_change Samples.two_happy_two_sad)
    by (vm_compute; reflexivity).
  assert (Hconf : PrimFloat.ltb 60
                    (mean
                       (map snd
                          (filter (fun o => String.eqb (fst o) "happy")
                             (push (emotion_buffer Samples.two_happy_two_sad)
                                   ("happy"%string, PrimFloat.mul 0.7 100)))))
                  = true)
    by (vm_compute; reflexivity).
  assert (Hmean : mean
                    (map snd
                       (filter (fun o => String.eqb (fst o) "happy")
                          (push (emotion_buffer Samples.two_happy_two_sad)
                                ("happy"%string, PrimFloat.mul 0.7 100))))
                  = 80%float)
    by (vm_compute; reflexivity).
  split; [exact Hocc|]. split; [exact Hcur|].
  split; [vm_compute; reflexivity|].
  exact (eq_trans
           (proj1 (majority_label_is_committed
                     mean Samples.two_happy_two_sad
                     (Samples.seen "happy" 0.7 3000000)
                     (Samples.fer_scores "happy" 0.7) [] "happy"
                     0.7%float "happy" Hz Hml eq_refl Hdom Hlen Hocc Hne
                     Hdwell Hconf))
           (f_equal (pair "happy"%string) Hmean)).
Defined.

(** The ninth call sees "sad" after "happy" twice, 3 s after construction:
    three entries are voted on, no label holds three of them, and the
    state keeps "neutral" at 85. *)
Lemma no_majority_witness :
  (3 <= List.length
          (push (emotion_buffer Samples.two_happy)
                ("sad"%string, PrimFloat.mul 0.9 100)))%nat /\
  (forall emo,
      occurrences emo
        (push (emotion_buffer Samples.two_happy)
              ("sad"%string, PrimFloat.mul 0.9 100)) < 3) /\
  2000000 < clock (Samples.seen "sad" 0.9 3000000)
            - last_emotion_change Samples.two_happy /\
  fst (detect_emotion mean Samples.two_happy
                      (Samples.seen "sad" 0.9 3000000))
  = ("neutral"%string, 85%float).
Proof.
  assert (Hz : (frame_count Samples.two_happy + 1) mod 3 = 0)
    by (vm_compute; reflexivity).
  assert (Hml : ml_available Samples.two_happy = true)
    by (vm_compute; reflexivity).
  assert (Hdom : dominant (Samples.fer_scores "sad" 0.9)
                 = Some ("sad"%string, 0.9%float))
    by (vm_compute; reflexivity).
  assert (Hfew : forall emo,
             occurrences emo
               (push (emotion_buffer Samples.two_happy)
                     ("sad"%string, PrimFloat.mul 0.9 100)) < 3).
  { intros emo.
    assert (Hlen : Z.of_nat
                     (List.length
                        (push (emotion_buffer Samples.two_happy)
                              ("sad"%string, PrimFloat.mul 0.9 100))) = 3)
      by (vm_compute; reflexivity).
    destruct (string_dec emo "sad") as [Hsad|Hne].
    - assert (Hh : occurrences "happy"
                     (push (emotion_buffer Samples.two_happy)
                           ("sad"%string, PrimFloat.mul 0.9 100)) = 2)
        by (vm_compute; reflexivity).
      assert (Hd : emo <> "happy"%string) by (rewrite Hsad; discriminate).
      pose proof (occurrences_two
                    emo "happy"
                    (push (emotion_buffer Samples.two_happy)
                          ("sad"%string, PrimFloat.mul 0.9 100)) Hd).
      lia.
    - assert (Hs : occurrences "sad"
                     (push (emotion_buffer Samples.two_happy)
                           ("sad"%string, PrimFloat.mul 0.9 100)) = 1)
        by (vm_compute; reflexivity).
      pose proof (occurrences_two
                    emo "sad"
                    (push (emotion_buffer Samples.two_happy)
                          ("sad"%string, PrimFloat.mul 0.9 100)) Hne).
      lia. }
  assert (Hcur : (current_emotion Samples.two_happy,
                  emotion_confidence Samples.two_happy)
                 = ("neutral"%string, 85%float))
    by (vm_compute; reflexivity).
  split; [vm_compute; lia|]. split; [exact Hfew|].
  split; [vm_compute; reflexivity|].
  exact (eq_trans
           (proj1 (no_majority_no_change
                     mean Samples.two_happy
                     (Samples.seen "sad" 0.9 3000000)
                     (Samples.fer_scores "sad" 0.9) [] "sad"
                     0.9%float Hz Hml eq_refl Hdom Hfew))
           Hcur).
Defined.

(** Seventeen calls on frames scored over the seven labels of the
    classifier. *)
Lemma known_label_witness :
  Forall (fun env => incl (reported env) Samples.fer_labels)
         Samples.filling_calls /\
  In (current_emotion (run mean (init 0 true) Samples.filling_calls))
     (fallback_emotions ++ Samples.fer_labels).
Proof.
  assert (Hall : Forall (fun env => incl (reported env) Samples.fer_labels)
                        Samples.filling_calls).
  { apply Forall_forall. intros env Henv.
    repeat (destruct Henv as [<-|Henv];
            [first [apply incl_refl
                   | intros x Hx; vm_compute in Hx; contradiction]|]).
    destruct Henv. }
  split; [exact Hall|].
  exact (current_emotion_is_a_known_label mean Samples.fer_labels 0 true
                                          Samples.filling_calls Hall).
Defined.

End HistoryFacts.

Module CameraFacts.
Import Py EffectFacts Sampler SamplerFacts Camera.
Local Open Scope py_scope.

Section WithGlobals.
Variable np_mean : list float -> float.
Variable g : globals.

(** With a handle that is not opened, [get_frame] reports "not present"
    and touches nothing. *)
Lemma get_frame_unopened env w c :
  CV_AVAILABLE g = true ->
  camera (detector w) = Some c ->
  isOpened c = false ->
  get_frame np_mean g env w = (Returns not_present, w).
Proof.
  intros Hcv Hcam Hop.
  unfold get_frame, initialize_camera. rewrite Hcv. cbn [negb].
  unfold bind, get_detector, ret. rewrite Hcam, Hop. reflexivity.
Qed.

(** X6: when none of the four handles opens at the sampler's first use,
    the sampler keeps the last handle, so that every later [get_frame]
    reports "not present" without trying to open a camera again and without
    changing any state, whatever the camera would then deliver. *)
Theorem unopened_camera_is_never_retried env0 w :
  CV_AVAILABLE g = true ->
  camera (detector w) = None ->
  no_camera_opens env0 ->
  fst (get_frame np_mean g env0 w) = Returns not_present /\
  forall env,
    get_frame np_mean g env (snd (get_frame np_mean g env0 w))
    = (Returns not_present, snd (get_frame np_mean g env0 w)).
Proof.
  intros Hcv Hcam Hno.
  destruct (Hno 0%nat) as (c0 & E0 & O0); [lia|].
  destruct (Hno 1%nat) as (c1 & E1 & O1); [lia|].
  destruct (Hno 2%nat) as (c2 & E2 & O2); [lia|].
  destruct (Hno 3%nat) as (c3 & E3 & O3); [lia|].
  set (w1 := {| detector :=
                  {| camera := Some c3;
                     face_cascade := face_cascade (detector w);
                     emotions := emotions (detector w);
                     persistent_emotion := persistent_emotion (detector w);
                     persistent_confidence := persistent_confidence (detector w);
                     last_change_time := last_change_time (detector w) |};
                face_analyzer := face_analyzer w |}).
  assert (H : get_frame np_mean g env0 w = (Returns not_present, w1)).
  { unfold get_frame, initialize_camera. rewrite Hcv. cbn [negb].
    unfold bind at 1. unfold bind at 1. unfold get_detector at 1.
    rewrite Hcam.
    unfold try_except, try_indices, bind, call, set_camera, set_detector,
      get_detector, attribute, ret, bind.
    rewrite E0. cbn. rewrite O0. cbn. rewrite E1. cbn. rewrite O1. cbn.
    rewrite E2. cbn. rewrite O2. cbn. rewrite E3. cbn. rewrite O3. cbn.
    rewrite O3. reflexivity. }
  rewrite H. cbn [fst snd]. split; [reflexivity|].
  intros env. apply (get_frame_unopened env w1 c3); [exact Hcv | reflexivity | exact O3].
Qed.

Lemma initialize_camera_effect env w :
  exists ok w',
    initialize_camera g env w = (Returns ok, w') /\
    (ok = true ->
     exists c, camera (detector w') = Some c /\ isOpened c = true) /\
    face_analyzer w' = face_analyzer w /\
    persistent (detector w') = persistent (detector w) /\
    face_cascade (detector w') = face_cascade (detector w) /\
    emotions (detector w') = emotions (detector w).
Proof.
  unfold initialize_camera.
  destruct (CV_AVAILABLE g); cbn [negb].
  2:{ exists false, w. repeat split; try reflexivity. discriminate. }
  unfold bind at 1. unfold get_detector at 1.
  destruct (camera (detector w)) as [c|] eqn:Hcam.
  { exists (isOpened c), w. repeat split; try reflexivity. eauto. }
  unfold try_except, try_indices, bind, call, set_camera, set_detector,
    get_detector, attribute, ret.
  destruct (capture env 0) as [[[|]]|]; cbn;
    [ | destruct (capture env 1) as [[[|]]|]; cbn;
        [ | destruct (capture env 2) as [[[|]]|]; cbn;
            [ | destruct (capture env 3) as [[[|]]|]; cbn | ] | ] | ];
    try (destruct (camera_set env) as [[]|]; cbn);
    eexists _, _; (split; [reflexivity|]); cbn;
    repeat split; try discriminate; eauto.
Qed.

(** X7: [initialize_camera] never raises; when it answers [True] the
    sampler holds an opened handle; and it changes nothing but the
    [camera] attribute: the stabilizer, the cascade, the list of emotions
    and the three attributes of the basic detector are as before. *)
Theorem initialize_camera_true_means_opened env w :
  exists ok w',
    initialize_camera g env w = (Returns ok, w') /\
    (ok = true ->
     exists c, camera (detector w') = Some c /\ isOpened c = true) /\
    face_analyzer w' = face_analyzer w /\
    persistent (detector w') = persistent (detector w) /\
    face_cascade (detector w') = face_cascade (detector w) /\
    emotions (detector w') = emotions (detector w).
Proof. exact (initialize_camera_effect env w). Qed.

(** X8: the indices are tried in the order 0, 1, 2, 3 and the first handle
    that is opened is the one the sampler holds afterwards. *)
Theorem first_camera_that_opens_is_used env w i c :
  CV_AVAILABLE g = true ->
  camera (detector w) = None ->
  (i <= 3)%nat ->
  (forall j, (j < i)%nat ->
             exists cj, capture env j = Returns cj /\ isOpened cj = false) ->
  capture env i = Returns c ->
  isOpened c = true ->
  camera_set env = Returns tt ->
  exists w',
    initialize_camera g env w = (Returns true, w') /\
    camera (detector w') = Some c.
Proof.
  intros Hcv Hcam Hi Hbelow Hc Hop Hset.
  unfold initialize_camera. rewrite Hcv. cbn [negb].
  unfold bind at 1. unfold get_detector at 1. rewrite Hcam.
  unfold try_except, try_indices, bind, call, set_camera, set_detector,
    get_detector, attribute, ret.
  destruct i as [|[|[|[|i]]]]; try lia.
  - rewrite Hc. cbn. rewrite Hop. cbn. rewrite Hop, Hset. cbn. eauto.
  - destruct (Hbelow 0%nat) as (c0 & E0 & O0); [lia|].
    rewrite E0. cbn. rewrite O0. cbn.
    rewrite Hc. cbn. rewrite Hop. cbn. rewrite Hop, Hset. cbn. eauto.
  - destruct (Hbelow 0%nat) as (c0 & E0 & O0); [lia|].
    destruct (Hbelow 1%nat) as (c1 & E1 & O1); [lia|].
    rewrite E0. cbn. rewrite O0. cbn. rewrite E1. cbn. rewrite O1. cbn.
    rewrite Hc. cbn. rewrite Hop. cbn. rewrite Hop, Hset. cbn. eauto.
  - destruct (Hbelow 0%nat) as (c0 & E0 & O0); [lia|].
    destruct (Hbelow 1%nat) as (c1 & E1 & O1); [lia|].
    destruct (Hbelow 2%nat) as (c2 & E2 & O2); [lia|].
    rewrite E0. cbn. rewrite O0. cbn. rewrite E1. cbn. rewrite O1. cbn.
    rewrite E2. cbn. rewrite O2. cbn.
    rewrite Hc. cbn. rewrite Hop. cbn. rewrite Hop, Hset. cbn. eauto.
Qed.

(** X9: a [get_frame] in demo mode, or on a frame in which the cascade
    finds no face or fails, leaves the stabilizer and the attributes of the
    basic detector as they were: emotion state advances only on frames with
    a face. *)
Theorem emotion_state_untouched_without_face env w :
  CV_AVAILABLE g = false \/
  find_faces env = Returns [] \/
  (exists e, find_faces env = Raises e) ->
  face_analyzer (snd (get_frame np_mean g env w)) = face_analyzer w /\
  persistent (detector (snd (get_frame np_mean g env w)))
  = persistent (detector w).
Proof.
  intros H.
  remember (snd (get_frame np_mean g env w)) as w' eqn:Hw'.
  unfold get_frame in Hw'.
  destruct (CV_AVAILABLE g) eqn:Hcv; cbn [negb] in Hw'.
  2:{ unfold _get_demo_frame, try_except, bind, call, ret in Hw'.
      destruct (demo_render (demo env)); cbn in Hw'; subst w'; auto. }
  destruct H as [H|H]; [discriminate|].
  destruct (initialize_camera_effect env w)
    as (ok & w1 & E & _ & Ha & Hp & _).
  unfold bind at 1 in Hw'. rewrite E in Hw'.
  rewrite <- Ha, <- Hp.
  destruct ok; cbn [negb] in Hw'; [|cbn in Hw'; subst w'; auto].
  unfold try_except at 1 in Hw'. unfold bind at 1 in Hw'.
  unfold call at 1 in Hw'.
  destruct (camera_read env) as [[ret_ frame]|e];
    [|cbn in Hw'; subst w'; auto].
  cbn [fst snd] in Hw'.
  destruct ret_; cbn [negb] in Hw'; [|cbn in Hw'; subst w'; auto].
  unfold detect_face_and_emotion in Hw'. rewrite Hcv in Hw'.
  cbn [negb] in Hw'.
  unfold try_except, bind, call, attribute, get_detector, ret, raise in Hw'.
  destruct frame as [frame|]; [|cbn in Hw'; subst w'; auto].
  destruct (face_cascade (detector w1));
    [|cbn in Hw'; destruct (imencode env); cbn in Hw'; subst w'; auto].
  destruct H as [H|[e H]]; rewrite H in Hw'; cbn in Hw';
    destruct (imencode env); cbn in Hw'; subst w'; auto.
Qed.

(** X10: [get_frame] returns no frame bytes only together with "not
    present" and no emotion and no confidence: the tuple that ends the
    video feed and that the websocket loop skips is always
    [(None, False, None, None)]. *)
Theorem no_bytes_means_not_present env w :
  exists frame_bytes is_present emotion confidence w',
    get_frame np_mean g env w
    = (Returns (frame_bytes, is_present, emotion, confidence), w') /\
    (frame_bytes = None ->
     is_present = false /\ emotion = None /\ confidence = None).
Proof.
  assert (H : always (fun s : sample => fst (fst (fst s)) = None ->
                                        s = not_present)
                     (get_frame np_mean g env)).
  { unfold get_frame.
    destruct (CV_AVAILABLE g); cbn [negb].
    - apply (always_bind (fun _ => True)); [apply initialize_camera_always|].
      intros ok _. destruct ok; cbn [negb]; [|now apply always_ret].
      apply always_try_except; [|intros e; now apply always_ret].
      apply returns_only_seq. intros r.
      destruct (fst r); cbn [negb]; [|now apply returns_only_ret].
      apply returns_only_seq. intros found.
      destruct found as [[[is_present emotion] confidence] [processed|]];
        [|now apply returns_only_ret].
      apply returns_only_seq. intros frame_bytes. apply returns_only_ret.
      cbn. discriminate.
    - unfold _get_demo_frame. apply always_try_except.
      + apply returns_only_seq. intros frame_bytes. apply returns_only_ret.
        cbn. discriminate.
      + intros e. now apply always_ret. }
  destruct (H w) as ([[[frame_bytes is_present] emotion] confidence] & w' & E
                     & HP).
  exists frame_bytes, is_present, emotion, confidence, w'.
  split; [exact E|]. cbn in HP. intros Hn. specialize (HP Hn).
  unfold not_present in HP. now injection HP as _ -> -> ->.
Qed.

End WithGlobals.

(** With OpenCV and no camera that opens, the first call and a later call
    on a machine whose camera would open both report nobody present. *)
Lemma unopened_camera_witness :
  no_camera_opens unplugged /\
  fst (get_frame Stabilizer.mean Samples.cv_globals unplugged
                 (at_start Samples.cv_globals))
  = Returns not_present /\
  fst (get_frame Stabilizer.mean Samples.cv_globals
         (Samples.one_face (Returns (true, Some [0])))
         (snd (get_frame Stabilizer.mean Samples.cv_globals unplugged
                         (at_start Samples.cv_globals))))
  = Returns not_present.
Proof.
  assert (Hno : no_camera_opens unplugged).
  { intros i _. eexists. split; reflexivity. }
  destruct (unopened_camera_is_never_retried
              Stabilizer.mean Samples.cv_globals unplugged
              (at_start Samples.cv_globals) eq_refl eq_refl Hno)
    as [Hfirst Hlater].
  split; [exact Hno|]. split; [exact Hfirst|].
  exact (f_equal fst (Hlater (Samples.one_face (Returns (true, Some [0]))))).
Defined.

(** A camera that opens at index 0 is the one kept. *)
Lemma first_camera_witness :
  capture (Samples.one_face (Returns (true, Some [0]))) 0%nat
  = Returns {| isOpened := true |} /\
  exists w',
    initialize_camera Samples.cv_globals
                      (Samples.one_face (Returns (true, Some [0])))
                      (at_start Samples.cv_globals)
    = (Returns true, w') /\
    camera (detector w') = Some {| isOpened := true |}.
Proof.
  assert (Hcap : capture (Samples.one_face (Returns (true, Some [0]))) 0%nat
                 = Returns {| isOpened := true |}) by reflexivity.
  assert (Hbefore : forall j, (j < 0)%nat ->
                      exists cj,
                        capture (Samples.one_face (Returns (true, Some [0]))) j
                        = Returns cj /\ isOpened cj = false)
    by (intros j Hj; lia).
  split; [exact Hcap|].
  exact (first_camera_that_opens_is_used
           Samples.cv_globals (Samples.one_face (Returns (true, Some [0])))
           (at_start Samples.cv_globals) 0%nat {| isOpened := true |}
           eq_refl eq_refl (le_0_n 3) Hbefore Hcap eq_refl eq_refl).
Defined.

(** A frame of a process without OpenCV. *)
Lemma untouched_without_face_witness :
  CV_AVAILABLE Samples.demo_globals = false /\
  face_analyzer
    (snd (get_frame Stabilizer.mean Samples.demo_globals
                    (Samples.one_face (Returns (true, Some [0])))
                    (at_start Samples.demo_globals)))
  = face_analyzer (at_start Samples.demo_globals).
Proof.
  split; [reflexivity|].
  exact (proj1 (emotion_state_untouched_without_face
                  Stabilizer.mean Samples.demo_globals
                  (Samples.one_face (Returns (true, Some [0])))
                  (at_start Samples.demo_globals) (or_introl eq_refl))).
Defined.

(** *** The basic detector *)

Lemma ltb_leb (a b : float) :
  PrimFloat.ltb a b = true -> PrimFloat.leb a b = true.
Proof.
  rewrite ltb_spec, leb_spec. unfold SFltb, SFleb.
  destruct (SFcompare (Prim2SF a) (Prim2SF b)) as [[| |]|]; congruence.
Qed.

Lemma above_80_at_least_75 (c : float) :
  PrimFloat.ltb 80 c = true -> PrimFloat.leb 75 c = true.
Proof.
  rewrite leb_spec, ltb_spec.
  replace (Prim2SF 80) with (S754_finite false 5629499534213120 (-46))
    by (vm_compute; reflexivity).
  replace (Prim2SF 75) with (S754_finite false 5277655813324800 (-46))
    by (vm_compute; reflexivity).
  destruct (Prim2SF c) as [s|s| |s m e]; unfold SFleb, SFltb, SFcompare;
    try destruct s; try discriminate; try reflexivity.
  destruct (Z.compare_spec (-46) e); try discriminate; try reflexivity.
  rewrite !Pos.compare_cont_spec. cbn [Pos.switch_Eq].
  destruct (5629499534213120 ?= m)%positive eqn:E; try discriminate.
  intros _. apply Pos.compare_lt_iff in E.
  assert (H' : (5277655813324800 < m)%positive).
  { eapply Pos.lt_trans; [|exact E]. reflexivity. }
  apply Pos.compare_lt_iff in H'. rewrite H'. reflexivity.
Qed.

Lemma max2_floor (x : float) : PrimFloat.leb 75 (max2 75 x) = true.
Proof.
  unfold max2. destruct (PrimFloat.ltb 75 x) eqn:E;
    [now apply ltb_leb | reflexivity].
Qed.

(** X11: once its attributes hold one of its four labels and a confidence
    of at least 75 (or do not exist yet), [_detect_emotion_basic] never
    raises, returns one of the labels "neutral", "happy", "sad",
    "surprise" with a confidence of at least 75 whatever the frame and the
    random draws are, keeps that property, and leaves camera and
    stabilizer alone. *)
Theorem basic_detector_floor env w :
  basic_ok (detector w) ->
  exists emotion confidence w',
    _detect_emotion_basic env w = (Returns (emotion, confidence), w') /\
    In emotion basic_emotions /\
    PrimFloat.leb 75 confidence = true /\
    basic_ok (detector w') /\
    camera (detector w') = camera (detector w) /\
    face_analyzer w' = face_analyzer w.
Proof.
  intros Hok. unfold basic_ok in Hok.
  unfold _detect_emotion_basic, try_except, bind, call, attribute,
    set_persistent, get_detector, set_detector, ret, raise.
  destruct w as [d a]. cbn [detector face_analyzer] in *.
  destruct d as [cam casc emos pe pc lc].
  cbn [persistent_emotion persistent_confidence last_change_time camera] in *.
  destruct pe as [e|], pc as [c|]; try contradiction.
  - destruct Hok as [He Hc].
    destruct (gray_stats env) as [[brightness contrast]|x]; cbn.
    2:{ eexists _, _, _. split; [reflexivity|]. cbn. auto 6. }
    destruct lc as [last|]; cbn.
    2:{ eexists _, _, _. split; [reflexivity|]. cbn. auto 6. }
    destruct (total_seconds_lt (basic_clock env - last) 2); cbn.
    { eexists _, _, _. split; [reflexivity|]. cbn. auto 6. }
    unfold basic_emotions in *.
    destruct (PrimFloat.ltb 160 brightness && PrimFloat.ltb 55 contrast);
      [|destruct (PrimFloat.ltb brightness 80 && PrimFloat.ltb contrast 45);
        [|destruct (PrimFloat.ltb 60 contrast);
          [|destruct (PrimFloat.ltb 140 brightness)]]];
      cbn [fst snd];
      match goal with
      | |- context [negb ?b && PrimFloat.ltb 80 ?x && ?y] =>
          destruct (negb b) eqn:?; cbn [andb];
          [destruct (PrimFloat.ltb 80 x) eqn:H80; cbn [andb];
           [destruct y; cbn|]|]
      end;
      eexists _, _, _; (split; [reflexivity|]); cbn;
      repeat split;
      try (apply max2_floor);
      try (apply above_80_at_least_75; assumption);
      cbn; auto 6.
  - destruct (gray_stats env) as [[brightness contrast]|x]; cbn.
    + replace (basic_clock env - basic_clock env) with 0 by lia. cbn.
      eexists _, _, _. split; [reflexivity|]. cbn. unfold basic_emotions.
      cbn. auto 6.
    + eexists _, _, _. split; [reflexivity|]. cbn. unfold basic_emotions.
      cbn. auto 6.
Qed.

(** X12: when the very first call of [_detect_emotion_basic] fails before
    its attributes exist, its handler creates the emotion and the
    confidence but not the time of last change; from then on every call
    returns ("neutral", 85.0), whatever the frame, and changes nothing. *)
Theorem basic_detector_stuck_after_first_failure env0 w e :
  persistent (detector w) = (None, None, None) ->
  gray_stats env0 = Raises e ->
  fst (_detect_emotion_basic env0 w)
  = Returns ("neutral"%string, 85%float) /\
  forall env,
    _detect_emotion_basic env (snd (_detect_emotion_basic env0 w))
    = (Returns ("neutral"%string, 85%float),
       snd (_detect_emotion_basic env0 w)).
Proof.
  intros Hp Hfail. unfold persistent in Hp.
  injection Hp as Hpe Hpc Hlc.
  set (w1 := {| detector :=
                  {| camera := camera (detector w);
                     face_cascade := face_cascade (detector w);
                     emotions := emotions (detector w);
                     persistent_emotion := Some "neutral"%string;
                     persistent_confidence := Some 85%float;
                     last_change_time := None |};
                face_analyzer := face_analyzer w |}).
  assert (H : _detect_emotion_basic env0 w
              = (Returns ("neutral"%string, 85%float), w1)).
  { unfold _detect_emotion_basic, try_except, bind, call, attribute,
      set_persistent, get_detector, set_detector, ret, raise.
    rewrite Hfail. cbn. rewrite Hpe. cbn. rewrite Hlc. reflexivity. }
  rewrite H. cbn [fst snd]. split; [reflexivity|].
  intros env.
  unfold _detect_emotion_basic, try_except, bind, call, attribute,
    set_persistent, get_detector, set_detector, ret, raise.
  destruct (gray_stats env) as [[brightness contrast]|x]; reflexivity.
Qed.

(** A call 3 s after the attributes were set, on a bright face: the 2 s
    test is passed, the frame and the draws are read, and "neutral" at 85
    gives way to "happy" at 86. *)
Lemma basic_detector_floor_witness :
  persistent (detector settled)
  = (Some "neutral"%string, Some 85%float, Some 0) /\
  basic_ok (detector settled) /\
  fst (_detect_emotion_basic bright settled)
  = Returns ("happy"%string, 86%float) /\
  exists emotion confidence w',
    _detect_emotion_basic bright settled
    = (Returns (emotion, confidence), w') /\
    In emotion basic_emotions /\
    PrimFloat.leb 75 confidence = true /\
    basic_ok (detector w').
Proof.
  assert (Hok : basic_ok (detector settled))
    by (split; [left; reflexivity | reflexivity]).
  split; [reflexivity|]. split; [exact Hok|].
  split; [vm_compute; reflexivity|].
  destruct (basic_detector_floor bright settled Hok)
    as (emotion & confidence & w' & Hrun & Hin & Hfloor & Hok' & _).
  exists emotion, confidence, w'. split; [exact Hrun|].
  split; [exact Hin|]. split; [exact Hfloor | exact Hok'].
Defined.

(** A first frame that cannot be converted, then a frame that can. *)
Lemma basic_detector_stuck_witness :
  gray_stats blind = Raises (Exception "cvtColor") /\
  fst (_detect_emotion_basic
         Samples.quiet_basic
         (snd (_detect_emotion_basic blind (at_start Samples.cv_globals))))
  = Returns ("neutral"%string, 85%float).
Proof.
  split; [reflexivity|].
  exact (f_equal fst
           (proj2 (basic_detector_stuck_after_first_failure
                     blind (at_start Samples.cv_globals)
                     (Exception "cvtColor") eq_refl eq_refl)
                  Samples.quiet_basic)).
Defined.

End CameraFacts.

Module RequestsFacts.
Import Py PyFacts EffectFacts Sampler Api Requests.
Local Open Scope py_scope.

Lemma last_snoc {A} (l : list A) x d : List.last (l ++ [x]) d = x.
Proof.
  induction l as [|a l IH]; [reflexivity|].
  cbn [app]. destruct (l ++ [x]) eqn:E; [destruct l; discriminate|].
  cbn [List.last]. exact IH.
Qed.

Section WithGlobals.
Variable np_mean : list float -> float.
Variable g : globals.

(** What [create_detection] does once the sample is taken, by cases on
    what the session's calls do. *)
Lemma create_detection_cases employee frame env s :
  exists frame_bytes is_present emotion confidence w',
    get_frame np_mean g frame (sampling s)
    = (Returns (frame_bytes, is_present, emotion, confidence), w') /\
    well_formed (frame_bytes, is_present, emotion, confidence) /\
    let row :=
      {| id := Some (next_id (rows (db s)));
         employee_id := employee;
         timestamp := Some (utcnow env);
         is_present := if is_present then 1 else 0;
         emotion := emotion;
         confidence := confidence |} in
    let after calls table :=
      {| sampling := w';
         db := {| rows := table;
                  uncommitted := [];
                  history := history (db s) ++ SessionLocal :: calls |} |} in
    create_detection np_mean g employee frame env s
    = match add_result env, commit_result env, refresh_result env with
      | Raises e, _, _ =>
          (Raises (HTTPException 500 ("Database error: " ++ str e)),
           after [Add; Rollback; Close] (rows (db s)))
      | Returns _, Raises e, _ =>
          (Raises (HTTPException 500 ("Database error: " ++ str e)),
           after [Add; Commit; Rollback; Close] (rows (db s)))
      | Returns _, Returns _, Raises e =>
          (Raises (HTTPException 500 ("Database error: " ++ str e)),
           after [Add; Commit; Refresh; Rollback; Close] (rows (db s) ++ [row]))
      | Returns _, Returns _, Returns _ =>
          (Returns {| r_id := id row;
                      r_employee_id := employee;
                      r_timestamp := timestamp row;
                      r_is_present := negb (Api.is_present row =? 0);
                      r_emotion := emotion;
                      r_confidence := confidence |},
           after [Add; Commit; Refresh; Close] (rows (db s) ++ [row]))
      end.
Proof.
  destruct (SamplerFacts.get_frame_always np_mean g frame (sampling s))
    as ([[[frame_bytes is_present] emotion] confidence] & w' & E & Hwf).
  exists frame_bytes, is_present, emotion, confidence, w'.
  split; [exact E|]. split; [exact Hwf|]. cbv zeta.
  unfold create_detection. unfold bind at 1. unfold sampler_call. rewrite E.
  unfold try_finally, try_except, db_open, db_add, db_commit, db_refresh,
    db_rollback, db_close, session, unchanged, bind, call, raise, ret,
    get_db, set_db.
  destruct (add_result env) as [[]|e1]; cbn -[next_id Z.eqb];
    [destruct (commit_result env) as [[]|e2]; cbn -[next_id Z.eqb];
     [destruct (refresh_result env) as [[]|e3]; cbn -[next_id Z.eqb]|]|];
    repeat first [ progress cbn -[next_id Z.eqb]
                 | rewrite map_app
                 | rewrite last_snoc
                 | rewrite <- app_assoc ];
    reflexivity.
Qed.

Lemma row_stored_by employee now table is_present emotion confidence
      (frame_bytes : option bytes) :
  well_formed (frame_bytes, is_present, emotion, confidence) ->
  stored_by employee now
    {| id := Some (next_id table);
       employee_id := employee;
       timestamp := Some now;
       is_present := if is_present then 1 else 0;
       emotion := emotion;
       confidence := confidence |}.
Proof.
  intros [He Hc]. unfold stored_by. cbn.
  destruct is_present; repeat split; auto; intros H;
    try discriminate; try (apply He in H; discriminate);
    try (apply Hc in H; discriminate);
    try (now apply He); try (now apply Hc).
Qed.


(** X14: when add, commit and refresh succeed, [create_detection] stores
    exactly one row and answers with that row's fields: its new id, the
    employee id, the insertion time, emotion and confidence, and
    [is_present] true exactly when the row's presence is 1. *)
Theorem create_detection_answers_with_stored_row employee frame env s :
  add_result env = Returns tt ->
  commit_result env = Returns tt ->
  refresh_result env = Returns tt ->
  exists response r s',
    create_detection np_mean g employee frame env s = (Returns response, s') /\
    rows (db s') = rows (db s) ++ [r] /\
    stored_by employee (utcnow env) r /\
    r_id response = id r /\
    r_employee_id response = employee_id r /\
    r_timestamp response = timestamp r /\
    r_emotion response = emotion r /\
    r_confidence response = confidence r /\
    (r_is_present response = true <-> is_present r = 1).
Proof.
  intros Ha Hc Hr.
  destruct (create_detection_cases employee frame env s)
    as (frame_bytes & is_present & emotion & confidence & w' & _ & Hwf & E).
  cbv zeta in E. rewrite Ha, Hc, Hr in E.
  pose proof (row_stored_by employee (utcnow env) (rows (db s)) is_present
                emotion confidence frame_bytes Hwf) as Hrow.
  eexists _, _, _. split; [exact E|]. cbn.
  split; [reflexivity|]. split; [exact Hrow|].
  repeat (split; [reflexivity|]).
  destruct is_present; cbn; split; intros H; try reflexivity; discriminate.
Qed.

(** X15: when add and commit succeed and the refresh that follows fails,
    [create_detection] reports [HTTPException] 500 although the row is
    stored: the rollback comes after the commit and removes nothing. *)
Theorem failed_refresh_keeps_the_row employee frame env s e :
  add_result env = Returns tt ->
  commit_result env = Returns tt ->
  refresh_result env = Raises e ->
  exists r s',
    create_detection np_mean g employee frame env s
    = (Raises (HTTPException 500 ("Database error: " ++ str e)), s') /\
    rows (db s') = rows (db s) ++ [r] /\
    stored_by employee (utcnow env) r /\
    history (db s')
    = history (db s)
      ++ [SessionLocal; Add; Commit; Refresh; Rollback; Close].
Proof.
  intros Ha Hc Hr.
  destruct (create_detection_cases employee frame env s)
    as (frame_bytes & is_present & emotion & confidence & w' & _ & Hwf & E).
  cbv zeta in E. rewrite Ha, Hc, Hr in E.
  pose proof (row_stored_by employee (utcnow env) (rows (db s)) is_present
                emotion confidence frame_bytes Hwf) as Hrow.
  eexists _, _. split; [exact E|]. cbn.
  split; [reflexivity|]. split; [exact Hrow | reflexivity].
Qed.

End WithGlobals.

(** A request served by a healthy database answers with the row of the
    employee asked for. *)
Lemma stored_row_witness :
  commit_result Samples.healthy = Returns tt /\
  exists response s',
    create_detection Stabilizer.mean Samples.cv_globals "EMP001"
                     (Samples.one_face (Returns (true, Some [0])))
                     Samples.healthy (Samples.started Samples.cv_globals)
    = (Returns response, s') /\
    r_employee_id response = "EMP001"%string /\
    r_timestamp response = Some 1000000.
Proof.
  split; [reflexivity|].
  destruct (create_detection_answers_with_stored_row
              Stabilizer.mean Samples.cv_globals "EMP001"
              (Samples.one_face (Returns (true, Some [0])))
              Samples.healthy (Samples.started Samples.cv_globals)
              eq_refl eq_refl eq_refl)
    as (response & r & s' & Hrun & _ & Hstored & _ & Hemp & Htime & _).
  destruct Hstored as (Hemployee & Hnow & _).
  exists response, s'. split; [exact Hrun|]. split.
  - exact (eq_trans Hemp Hemployee).
  - exact (eq_trans Htime Hnow).
Defined.

(** A request whose refresh fails: the answer is an error and the table
    has one row more. *)
Lemma failed_refresh_witness :
  refresh_result stale = Raises (Exception "refresh") /\
  exists r s',
    create_detection Stabilizer.mean Samples.cv_globals "EMP001"
                     (Samples.one_face (Returns (true, Some [0])))
                     stale (Samples.started Samples.cv_globals)
    = (Raises (HTTPException 500 "Database error: refresh"), s') /\
    rows (db s') = [r].
Proof.
  split; [reflexivity|].
  destruct (failed_refresh_keeps_the_row
              Stabilizer.mean Samples.cv_globals "EMP001"
              (Samples.one_face (Returns (true, Some [0])))
              stale (Samples.started Samples.cv_globals)
              (Exception "refresh") eq_refl eq_refl eq_refl)
    as (r & s' & Hrun & Hrows & _).
  exists r, s'. split; [exact Hrun | exact Hrows].
Defined.

(** *** The emotion distribution *)

Lemma keys_set {V} (d : dict V) k k' v :
  In k (keys (set d k' v)) -> k = k' \/ In k (keys d).
Proof.
  induction d as [|[k0 v0] d IH]; cbn.
  - intros [H|[]]. now left.
  - destruct (String.eqb_spec k0 k') as [->|Hne]; cbn.
    + intros [H|H]; auto.
    + intros [H|H]; auto. destruct (IH H); auto.
Qed.

Lemma count_of_cons e d detections :
  count_of e (d :: detections)
  = (if counted e d then 1 else 0) + count_of e detections.
Proof.
  unfold count_of. cbn [filter].
  destruct (counted e d); cbn [List.length]; lia.
Qed.

Lemma count_of_nonneg e detections : 0 <= count_of e detections.
Proof. unfold count_of. lia. Qed.

Lemma count_step_spec counts d e :
  get (count_step counts d) e 0
  = get counts e 0 + (if counted e d then 1 else 0).
Proof.
  unfold count_step, counted.
  destruct (emotion d) as [e'|]; [|rewrite andb_false_r; lia].
  destruct (truthy_str (Some e')), (truthy_int (is_present d)); cbn [andb];
    try lia.
  destruct (String.eqb_spec e' e) as [->|Hne].
  - rewrite get_set_same. lia.
  - rewrite get_set_other by assumption. lia.
Qed.

Lemma count_fold_get detections counts e :
  get (fold_left count_step detections counts) e 0
  = get counts e 0 + count_of e detections.
Proof.
  revert counts. induction detections as [|d detections IH]; intros counts.
  - unfold count_of. cbn. lia.
  - cbn [fold_left]. rewrite IH, count_step_spec, count_of_cons. lia.
Qed.

Lemma count_fold_keys detections counts e :
  In e (keys (fold_left count_step detections counts)) ->
  In e (keys counts) \/ 0 < count_of e detections.
Proof.
  revert counts. induction detections as [|d detections IH]; intros counts.
  - cbn. auto.
  - cbn [fold_left]. intros H. apply IH in H.
    rewrite count_of_cons. pose proof (count_of_nonneg e detections).
    destruct H as [H|H]; [|right; destruct (counted e d); lia].
    unfold count_step in H. unfold counted.
    destruct (emotion d) as [e'|]; [|now left].
    destruct (truthy_str (Some e')) eqn:Ts,
             (truthy_int (is_present d)) eqn:Ti;
      cbn [andb] in *; try (now left).
    apply keys_set in H. destruct H as [->|H]; [|now left].
    right. rewrite String.eqb_refl. lia.
Qed.

(** X16: in the summary of any rows, [total_detections] is the number of
    rows, and the distribution maps every label to the number of rows that
    are present and carry that label (a non-empty one); a label that no such
    row carries is not a key of the distribution. *)
Theorem distribution_counts_present_rows detections :
  exists summary,
    aggregate detections = Returns summary /\
    total_detections summary = Z.of_nat (List.length detections) /\
    (forall e, get (emotion_distribution summary) e 0 = count_of e detections)
    /\
    (forall e, In e (keys (emotion_distribution summary)) ->
               0 < count_of e detections).
Proof.
  destruct detections as [|d0 detections].
  - exists empty_summary. split; [reflexivity|]. split; [reflexivity|].
    split; [reflexivity|]. intros e [].
  - destruct (ApiFacts.aggregate_returns (d0 :: detections)) as [summary E].
    exists summary. split; [exact E|].
    unfold aggregate, summarize in E.
    destruct (0 <? Z.of_nat (List.length (d0 :: detections)));
      [destruct (int_truediv _ _); [|discriminate]|];
      injection E as <-; cbn [total_detections emotion_distribution];
      (split; [reflexivity|]);
      change (Api.count_emotions (d0 :: detections))
        with (fold_left count_step (d0 :: detections) []);
      (split;
       [intros e; rewrite count_fold_get; reflexivity
       |intros e H; apply count_fold_keys in H; destruct H as [[]|H]; exact H]).
Qed.


(** X24: asked for more than 999999999 days, back or ahead,
    [get_analytics] does not answer with a summary: [timedelta] raises,
    the exception leaves the endpoint once the session is closed, and no
    row changes. *)
Theorem get_analytics_rejects_too_many_days employee days now s :
  999999999 < Z.abs days ->
  exists e s',
    get_analytics employee days now s = (Raises e, s') /\
    rows (db s') = rows (db s) /\
    history (db s') = history (db s) ++ [SessionLocal; Close].
Proof.
  intros Hdays.
  unfold get_analytics, try_finally, bind, call, db_open, db_close, session,
    get_db, set_db, since, timedelta.
  destruct (Z.leb_spec (Z.abs days) 999999999) as [|_]; [lia|].
  cbn. eexists _, _. split; [reflexivity|]. cbn.
  rewrite <- app_assoc. auto.
Qed.

(** A thousand million days on the table of two rows. *)
Lemma too_many_days_witness :
  999999999 < Z.abs 1000000000 /\
  exists e s',
    get_analytics "EMP001" 1000000000 1700000000000000 recorded
    = (Raises e, s') /\
    rows (db s') = rows (db recorded).
Proof.
  assert (Hdays : 999999999 < Z.abs 1000000000) by reflexivity.
  split; [exact Hdays|].
  destruct (get_analytics_rejects_too_many_days
              "EMP001" 1000000000 1700000000000000 recorded Hdays)
    as (e & s' & Hrun & Hrows & _).
  exists e, s'. split; [exact Hrun | exact Hrows].
Defined.

(** *** [get_detections] *)

Lemma ts_le_total a b : ts_le a b = false -> ts_le b a = true.
Proof.
  destruct a as [x|], b as [y|]; cbn; try discriminate; try reflexivity.
  intros H. apply Z.leb_gt in H. apply Z.leb_le. lia.
Qed.

Lemma ts_le_trans a b c :
  ts_le a b = true -> ts_le b c = true -> ts_le a c = true.
Proof.
  destruct a as [x|], b as [y|], c as [z|]; cbn; try discriminate;
    try reflexivity.
  rewrite !Z.leb_le. lia.
Qed.

Lemma insert_desc_In x d l : In x (insert_desc d l) <-> x = d \/ In x l.
Proof.
  induction l as [|d' l IH]; cbn.
  - split; intros [H|H]; auto.
  - destruct (ts_le (timestamp d') (timestamp d)); cbn.
    + split; intros [H|H]; auto.
    + rewrite IH. split; intros [H|[H|H]]; auto.
Qed.

Lemma order_desc_In x l : In x (order_desc l) <-> In x l.
Proof.
  induction l as [|d l IH]; [tauto|].
  change (order_desc (d :: l)) with (insert_desc d (order_desc l)).
  rewrite insert_desc_In, IH. cbn. split; intros [H|H]; auto.
Qed.



Lemma insert_desc_sorted d l :
  newest_first (map to_response l) ->
  newest_first (map to_response (insert_desc d l)).
Proof.
  induction l as [|d' l IH]; cbn [insert_desc map newest_first].
  - intros _. split; [constructor | exact I].
  - intros [Hall Hs].
    destruct (ts_le (timestamp d') (timestamp d)) eqn:E;
      cbn [map newest_first].
    + split; [|split; assumption].
      constructor; [exact E|].
      eapply Forall_impl; [|exact Hall].
      intros b Hb. cbn in *. eapply ts_le_trans; eassumption.
    + split; [|now apply IH].
      apply Forall_forall. intros b Hb.
      apply in_map_iff in Hb. destruct Hb as (x & <- & Hx).
      apply insert_desc_In in Hx. destruct Hx as [->|Hx].
      * cbn. now apply ts_le_total.
      * rewrite Forall_forall in Hall. apply Hall.
        apply in_map_iff. eauto.
Qed.

Lemma order_desc_sorted l : newest_first (map to_response (order_desc l)).
Proof.
  induction l as [|d l IH]; [exact I|].
  change (order_desc (d :: l)) with (insert_desc d (order_desc l)).
  now apply insert_desc_sorted.
Qed.



Lemma insert_desc_permutation d l : Permutation (insert_desc d l) (d :: l).
Proof.
  induction l as [|d' l IH]; cbn [insert_desc]; [reflexivity|].
  destruct (ts_le (timestamp d') (timestamp d)); [reflexivity|].
  rewrite IH. apply perm_swap.
Qed.

Lemma order_desc_permutation l : Permutation (order_desc l) l.
Proof.
  induction l as [|d l IH]; [reflexivity|].
  change (order_desc (d :: l)) with (insert_desc d (order_desc l)).
  rewrite insert_desc_permutation. now constructor.
Qed.

(** In a list that is newest first, a row is at least as recent as every
    row after it. *)
Lemma newest_first_split before r after :
  newest_first (map to_response (before ++ r :: after)) ->
  forall d, In d after ->
            ts_le (r_timestamp (to_response d)) (r_timestamp (to_response r))
            = true.
Proof.
  induction before as [|b before IH]; cbn [app map newest_first].
  - intros [Hall _] d Hd. rewrite Forall_forall in Hall.
    apply Hall. now apply in_map.
  - intros [_ Hrest]. now apply IH.
Qed.

(** The filters of lines 489-499, read as a proposition. *)
Lemma matches_spec employee start end_ d :
  matches employee start end_ d = true <->
  employee_id d = employee /\
  (forall t0, start = Some t0 ->
              exists t, timestamp d = Some t /\ fields t0 <= t) /\
  (forall t1, end_ = Some t1 ->
              exists t, timestamp d = Some t /\ t <= fields t1).
Proof.
  unfold matches. rewrite !andb_true_iff, String.eqb_eq.
  split.
  - intros [[Hemp Hstart] Hend]. split; [exact Hemp|]. split.
    + intros t0 ->. destruct (timestamp d) as [t|]; [|discriminate].
      exists t. split; [reflexivity|]. now apply Z.leb_le.
    + intros t1 ->. destruct (timestamp d) as [t|]; [|discriminate].
      exists t. split; [reflexivity|]. now apply Z.leb_le.
  - intros (Hemp & Hstart & Hend). split; [split; [exact Hemp|]|].
    + destruct start as [t0|]; [|reflexivity].
      destruct (Hstart t0 eq_refl) as (t & -> & Hle). now apply Z.leb_le.
    + destruct end_ as [t1|]; [|reflexivity].
      destruct (Hend t1 eq_refl) as (t & -> & Hle). now apply Z.leb_le.
Qed.

Section WithParser.
Variable fromisoformat : string -> outcome datetime.

(** X18: when both bounds are absent or parse and the query runs,
    [get_detections] changes no row and returns the first
    min([limit], n) of the n selected rows in an order in which no row
    is older than a row after it.  The selected rows are those of the
    employee asked for whose time is not before the fields of the start
    bound and not after the fields of the end bound, each as often as the
    table holds it; the UTC offset of a bound plays no part, and a row
    without a time passes no bound. *)
Theorem get_detections_filters_sorts_and_limits employee limit start_date
        end_date s start end_ :
  parse_bound fromisoformat start_date = Returns start ->
  parse_bound fromisoformat end_date = Returns end_ ->
  0 <= limit ->
  exists kept dropped s',
    get_detections fromisoformat employee limit start_date end_date
                   (Returns tt) s
    = (Returns (map to_response kept), s') /\
    rows (db s') = rows (db s) /\
    Permutation (kept ++ dropped)
                (filter (matches employee start end_) (rows (db s))) /\
    (forall d,
        In d (kept ++ dropped) <->
        In d (rows (db s)) /\
        employee_id d = employee /\
        (forall t0, start = Some t0 ->
                    exists t, timestamp d = Some t /\ fields t0 <= t) /\
        (forall t1, end_ = Some t1 ->
                    exists t, timestamp d = Some t /\ t <= fields t1)) /\
    Z.of_nat (List.length kept)
    = Z.min limit (Z.of_nat (List.length (kept ++ dropped))) /\
    (forall before r after,
        kept ++ dropped = before ++ r :: after ->
        forall d t, In d after -> timestamp d = Some t ->
                    exists t', timestamp r = Some t' /\ t <= t').
Proof.
  intros Hs He Hlim.
  set (found := filter (matches employee start end_) (rows (db s))).
  exists (firstn (Z.to_nat limit) (order_desc found)),
         (skipn (Z.to_nat limit) (order_desc found)).
  rewrite firstn_skipn.
  unfold get_detections, try_finally, try_except, db_open, db_close, session,
    bind, call, ret, raise, get_db, set_db.
  rewrite Hs, He. cbn -[matches order_desc limit_to].
  unfold limit_to. destruct (Z.ltb_spec limit 0) as [|_]; [lia|].
  fold found.
  eexists. split; [reflexivity|].
  cbn -[matches order_desc].
  split; [reflexivity|].
  split; [apply order_desc_permutation|].
  split; [|split].
  - intros d. rewrite order_desc_In. unfold found.
    rewrite filter_In, matches_spec. reflexivity.
  - rewrite length_firstn. lia.
  - intros before r after Hsplit d t Hd Ht.
    pose proof (order_desc_sorted found) as Hsorted.
    rewrite Hsplit in Hsorted.
    apply (newest_first_split before r after Hsorted d) in Hd.
    cbn in Hd. rewrite Ht in Hd.
    destruct (timestamp r) as [t'|]; [|discriminate].
    exists t'. split; [reflexivity|]. now apply Z.leb_le.
Qed.

(** X19: when a non-empty bound does not parse, and also when the query
    itself fails, [get_detections] raises [HTTPException] 400 "Invalid
    date format: ..." with the text of the error; the rows are untouched
    and the session is closed. *)
Theorem get_detections_reports_failures_as_400 employee limit start_date
        end_date queried s e :
  parse_bound fromisoformat start_date = Raises e \/
  (exists start, parse_bound fromisoformat start_date = Returns start /\
                 parse_bound fromisoformat end_date = Raises e) \/
  (exists start end_,
      parse_bound fromisoformat start_date = Returns start /\
      parse_bound fromisoformat end_date = Returns end_ /\
      queried = Raises e) ->
  exists s',
    get_detections fromisoformat employee limit start_date end_date queried s
    = (Raises (HTTPException 400 ("Invalid date format: " ++ str e)), s') /\
    rows (db s') = rows (db s) /\
    history (db s') = history (db s) ++ [SessionLocal; Close].
Proof.
  intros H.
  unfold get_detections, try_finally, try_except, db_open, db_close, session,
    bind, call, ret, raise, get_db, set_db.
  destruct H as [H|[(start & H1 & H2)|(start & end_ & H1 & H2 & H3)]].
  - rewrite H. cbn. eexists. split; [reflexivity|]. cbn.
    rewrite <- app_assoc. auto.
  - rewrite H1, H2. cbn. eexists. split; [reflexivity|]. cbn.
    rewrite <- app_assoc. auto.
  - rewrite H1, H2, H3. cbn. eexists. split; [reflexivity|]. cbn.
    rewrite <- app_assoc. auto.
Qed.

End WithParser.

(** A query for the newest row since a bound given with a UTC offset, on
    a table of three rows: the row stored before the fields of the bound
    is not selected, although it lies after the bound as an instant, and
    of the two rows selected the limit keeps the one stored last. *)
Lemma get_detections_witness :
  parse_bound one_text_parser (Some "1970-01-01T00:00:01.500000+02:00"%string)
  = Returns (Some {| fields := 1500000; utcoffset := Some 7200000000 |}) /\
  fst (get_detections one_text_parser "EMP001" 1
         (Some "1970-01-01T00:00:01.500000+02:00"%string) None (Returns tt)
         three_rows)
  = Returns [to_response (stored 3 3000000 (Samples.present "sad" 72.25))] /\
  exists kept dropped s',
    get_detections one_text_parser "EMP001" 1
      (Some "1970-01-01T00:00:01.500000+02:00"%string) None (Returns tt)
      three_rows
    = (Returns (map to_response kept), s') /\
    Permutation (kept ++ dropped)
                [stored 2 2000000 Samples.absent;
                 stored 3 3000000 (Samples.present "sad" 72.25)] /\
    Z.of_nat (List.length kept) = 1.
Proof.
  assert (Hstart : parse_bound one_text_parser
                     (Some "1970-01-01T00:00:01.500000+02:00"%string)
                   = Returns (Some {| fields := 1500000;
                                      utcoffset := Some 7200000000 |}))
    by reflexivity.
  split; [exact Hstart|]. split; [vm_compute; reflexivity|].
  destruct (get_detections_filters_sorts_and_limits
              one_text_parser "EMP001" 1
              (Some "1970-01-01T00:00:01.500000+02:00"%string) None
              three_rows
              (Some {| fields := 1500000; utcoffset := Some 7200000000 |})
              None Hstart eq_refl (proj1 (Z.leb_le 0 1) eq_refl))
    as (kept & dropped & s' & Hrun & _ & Hperm & _ & Hlen & _).
  exists kept, dropped, s'. split; [exact Hrun|]. split; [exact Hperm|].
  rewrite Hlen. rewrite (Permutation_length Hperm). reflexivity.
Defined.

(** A start date that is not a date. *)
Lemma invalid_date_witness :
  parse_bound no_parser (Some "yesterday"%string)
  = Raises (Exception "Invalid isoformat string") /\
  exists s',
    get_detections no_parser "EMP001" 100 (Some "yesterday"%string) None
                   (Returns tt) recorded
    = (Raises (HTTPException
                 400 "Invalid date format: Invalid isoformat string"), s') /\
    rows (db s') = rows (db recorded).
Proof.
  assert (Hbad : parse_bound no_parser (Some "yesterday"%string)
                 = Raises (Exception "Invalid isoformat string"))
    by reflexivity.
  split; [exact Hbad|].
  destruct (get_detections_reports_failures_as_400
              no_parser "EMP001" 100 (Some "yesterday"%string) None
              (Returns tt) recorded (Exception "Invalid isoformat string")
              (or_introl Hbad))
    as (s' & Hrun & Hrows & _).
  exists s'. split; [exact Hrun | exact Hrows].
Defined.

End RequestsFacts.

Module ReportsFacts.
Import Py PyFacts Api Reports.

(** X20: the PDF export answers an empty selection with [HTTPException]
    404 "No data found for export"; on any other selection its division
    succeeds and its summary is the one the CSV export computes. *)
Theorem pdf_export_summary_or_404 detections :
  match detections with
  | [] => export_pdf_analytics detections
          = Raises (HTTPException 404 "No data found for export")
  | _ :: _ => exists a, export_pdf_analytics detections = Returns a /\
                        export_analytics detections = Returns a
  end.
Proof.
  destruct detections as [|d0 detections]; [reflexivity|].
  unfold export_pdf_analytics, export_analytics.
  assert (Hpos : (0 <? Z.of_nat (List.length (d0 :: detections))) = true)
    by (apply Z.ltb_lt; cbn [List.length]; lia).
  rewrite Hpos.
  destruct (int_truediv _ _) as [q|e] eqn:Ediv.
  - eexists. split; reflexivity.
  - exfalso. unfold int_truediv in Ediv.
    destruct (Z.eqb_spec (Z.of_nat (List.length (d0 :: detections))) 0)
      as [H0|_]; [cbn [List.length] in H0; lia|].
    destruct (Z.of_nat (List.length (filter _ (d0 :: detections))));
      discriminate.
Qed.

End ReportsFacts.

Module SimpleFacts.
Import Py PyFacts EffectFacts Api Simple.
Local Open Scope py_scope.

(** X21: in the server without computer vision a failing [db.add] or
    [db.commit] leaves [create_detection] as the exception it raised, not
    as an [HTTPException]; the session is closed without a rollback and the
    table keeps the rows it had. *)
Theorem simple_create_detection_lets_failure_through employee mock env s e :
  add_result env = Raises e \/
  (add_result env = Returns tt /\ commit_result env = Raises e) ->
  exists s',
    create_detection employee mock env s = (Raises e, s') /\
    rows (db s') = rows (db s) /\
    uncommitted (db s') = [] /\
    history (db s')
    = history (db s) ++ match add_result env with
                        | Raises _ => [SessionLocal; Add; Close]
                        | Returns _ => [SessionLocal; Add; Commit; Close]
                        end.
Proof.
  intros H.
  unfold create_detection, try_finally, db_open, db_add, db_commit,
    db_refresh, db_close, session, bind, call, ret, raise, get_db, set_db.
  destruct (get_detection mock) as [[p em] c].
  destruct H as [H|[H1 H2]].
  - rewrite H. cbn. eexists. split; [reflexivity|]. cbn.
    rewrite <- !app_assoc. auto.
  - rewrite H1, H2. cbn. eexists. split; [reflexivity|]. cbn.
    rewrite <- !app_assoc. auto.
Qed.

(** A request during which the database is locked. *)
Lemma simple_failure_witness :
  commit_result Samples.locked = Raises (Exception "database is locked") /\
  exists s',
    create_detection "EMP001" sunny Samples.locked
                     (Samples.started Samples.demo_globals)
    = (Raises (Exception "database is locked"), s') /\
    rows (db s') = [].
Proof.
  assert (Hfail : add_result Samples.locked = Returns tt /\
                  commit_result Samples.locked
                  = Raises (Exception "database is locked"))
    by (split; reflexivity).
  split; [exact (proj2 Hfail)|].
  destruct (simple_create_detection_lets_failure_through
              "EMP001" sunny Samples.locked
              (Samples.started Samples.demo_globals)
              (Exception "database is locked") (or_intror Hfail))
    as (s' & Hrun & Hrows & _).
  exists s'. split; [exact Hrun | exact Hrows].
Defined.

End SimpleFacts.

Module ConnectionsFacts.
Import Py PyFacts Connections.
Local Open Scope py_scope.

Lemma existsb_In w l : existsb (Z.eqb w) l = true <-> In w l.
Proof.
  rewrite existsb_exists. split.
  - intros (x & Hx & E). apply Z.eqb_eq in E. now subst.
  - intros H. exists w. split; [assumption | apply Z.eqb_refl].
Qed.

Lemma list_remove_snoc w l : ~ In w l -> list_remove w (l ++ [w]) = l.
Proof.
  induction l as [|a l IH]; cbn.
  - now rewrite Z.eqb_refl.
  - intros H. destruct (Z.eqb_spec a w) as [->|_]; [tauto|].
    rewrite IH; tauto.
Qed.

Lemma list_remove_others w l :
  filter (fun x => negb (x =? w)) (list_remove w l)
  = filter (fun x => negb (x =? w)) l.
Proof.
  induction l as [|a l IH]; cbn; [reflexivity|].
  destruct (Z.eqb_spec a w) as [->|Hne]; cbn; [reflexivity|].
  destruct (Z.eqb_spec a w); [contradiction|]. cbn. now rewrite IH.
Qed.

Lemma list_remove_count w l :
  In w l ->
  S (List.length (filter (Z.eqb w) (list_remove w l)))
  = List.length (filter (Z.eqb w) l).
Proof.
  induction l as [|a l IH]; cbn; [tauto|].
  intros [->|H].
  - now rewrite Z.eqb_refl.
  - destruct (Z.eqb_spec a w) as [->|Hne].
    + now rewrite Z.eqb_refl.
    + cbn. destruct (Z.eqb_spec w a); [congruence|]. now apply IH.
Qed.

(** X22: for a socket that is not registered, [connect] followed by
    [disconnect] gives back the registry as it was, and a second
    [disconnect], as the handler's [finally] makes, changes nothing and
    raises nothing. *)
Theorem connect_then_disconnect_restores_registry websocket self :
  ~ In websocket (active_connections self) ->
  (connect websocket (Returns tt) ;; disconnect websocket) self
  = (Returns tt, self) /\
  (connect websocket (Returns tt) ;; disconnect websocket ;;
   disconnect websocket) self
  = (Returns tt, self).
Proof.
  intros Hnot. destruct self as [l]. cbn in Hnot.
  assert (Hin : existsb (Z.eqb websocket) (l ++ [websocket]) = true)
    by (apply existsb_In, in_or_app; right; now left).
  assert (Hout : existsb (Z.eqb websocket) l = false).
  { destruct (existsb (Z.eqb websocket) l) eqn:E; [|reflexivity].
    apply existsb_In in E. contradiction. }
  unfold connect, disconnect, bind, call. cbn.
  rewrite Hin, list_remove_snoc by assumption. cbn.
  rewrite Hout. split; reflexivity.
Qed.

(** A third client comes and goes. *)
Lemma connect_disconnect_witness :
  ~ In 3 (active_connections two_clients) /\
  (connect 3 (Returns tt) ;; disconnect 3) two_clients
  = (Returns tt, two_clients).
Proof.
  assert (Hnew : ~ In 3 (active_connections two_clients))
    by (cbn; intros [H|[H|[]]]; discriminate).
  split; [exact Hnew|].
  exact (proj1 (connect_then_disconnect_restores_registry 3 two_clients
                                                          Hnew)).
Defined.

(** X23: [send_personal_message] never raises.  When the send fails the
    socket loses one registration, if it has one; every other socket stays
    registered, in the same order; when the send succeeds the registry is
    unchanged. *)
Theorem send_personal_message_drops_only_the_failed_socket sent websocket
        self :
  exists self',
    send_personal_message sent websocket self = (Returns tt, self') /\
    others websocket self' = others websocket self /\
    match sent with
    | Returns _ => self' = self
    | Raises _ =>
        registrations websocket self' = pred (registrations websocket self)
    end.
Proof.
  unfold send_personal_message, try_except, call, disconnect, others,
    registrations.
  destruct sent as [[]|e].
  - eexists. repeat split.
  - destruct (existsb _ _) eqn:E.
    + eexists. split; [reflexivity|]. cbn. split.
      * apply list_remove_others.
      * apply existsb_In in E.
        now rewrite <- (list_remove_count websocket _ E).
    + eexists. split; [reflexivity|]. split; [reflexivity|].
      assert (Hnot : ~ In websocket (active_connections self)).
      { intros H. apply existsb_In in H. congruence. }
      destruct (filter _ _) as [|x l] eqn:F; [reflexivity|].
      exfalso. apply Hnot.
      assert (Hx : In x (filter (Z.eqb websocket) (active_connections self)))
        by (rewrite F; now left).
      apply filter_In in Hx. destruct Hx as [Hx Ex].
      apply Z.eqb_eq in Ex. now subst.
Qed.

End ConnectionsFacts.
